(** * xhrless: a shallow embedding of [xhrless.js]

    The development follows the source file section by section: JavaScript
    values and plain objects, the [XMLHttpRequest] collaborator, the [XHR]
    instance with its builder methods, the event handlers, [send], and the
    user-level helpers ([isCompleted], [isStatusOK], [isSuccessResponse],
    [errorState]).

    Modelling conventions.
    - A JavaScript string is the Rocq [string] of its UTF-8 bytes; the only
      uses of [.length] in the source are emptiness tests, which agree on
      both readings.  Strings are well-formed (no lone surrogates), so
      [encodeURIComponent] never throws.
    - A number is an integer ([JNum]) or [JNaN]; the source only compares
      the HTTP status and tests numbers for truthiness.
    - A plain object is the list of its own enumerable data properties in
      creation order; [for ... in] visits array-index keys first, ascending,
      then the other keys in creation order.  Its prototype is
      [Object.prototype]; of that, the method [hasOwnProperty] and the
      accessor [__proto__] reach the source and are modelled.  A call of a
      function of the caller, and an object whose prototype has been
      replaced, are outside the model: a call that gets there ends in
      [LeavesModel].
    - The transport's methods [open], [setRequestHeader], [send] are
      recorded in the order they are invoked; what the transport does with
      them (a new ready state, notifications, a response) is outside the
      program and reaches the instance through [progress] and through the
      calls of the installed handlers, not through the invocation.
    - A method that always ends in [return this] is a function from the
      instance to the instance; chaining is composition.  [send], which may
      throw, runs in a state-and-exception monad that keeps the instance as
      it is at the point of the throw. *)

From Stdlib Require Import ZArith List String Ascii Bool Lia Permutation.
From Stdlib Require Import DecimalString.
From Stdlib Require DecimalZ DecimalPos.
Import ListNotations.

Local Open Scope string_scope.
Local Open Scope Z_scope.

(** ** JavaScript values *)

#[warnings="-register-all"]
Inductive jsval : Type :=
| JUndefined
| JNull
| JBool (b : bool)
| JNum (n : Z)
| JNaN
| JStr (s : string)
| JObject (props : list (string * jsval))
| JFunction (name : string)
| JError (message : string).

(** A plain object: own enumerable properties, in creation order. *)
Definition obj : Type := list (string * jsval).

(** [typeof v] *)
Definition js_typeof (v : jsval) : string :=
  match v with
  | JUndefined => "undefined"
  | JNull => "object"
  | JBool _ => "boolean"
  | JNum _ | JNaN => "number"
  | JStr _ => "string"
  | JObject _ | JError _ => "object"
  | JFunction _ => "function"
  end.

(** ToBoolean: [undefined], [null], [false], [0], [NaN] and [""] are falsy. *)
Definition truthy (v : jsval) : bool :=
  match v with
  | JUndefined | JNull | JNaN => false
  | JBool b => b
  | JNum n => negb (n =? 0)
  | JStr s => negb (s =? "")%string
  | JObject _ | JFunction _ | JError _ => true
  end.

(** [a || b] *)
Definition js_or (a b : jsval) : jsval := if truthy a then a else b.

(** [v.length] of a string; other primitives have no such property. *)
Definition js_length (v : jsval) : jsval :=
  match v with
  | JStr s => JNum (Z.of_nat (String.length s))
  | _ => JUndefined
  end.

(** [v !== null && v !== undefined] *)
Definition not_null_or_undefined (v : jsval) : bool :=
  match v with
  | JNull | JUndefined => false
  | _ => true
  end.

(** The characters of a string value. *)
Definition str_value (v : jsval) : string :=
  match v with
  | JStr s => s
  | _ => ""
  end.

(** Number to string, on integers: the decimal numeral. *)
Definition number_to_string (n : Z) : string :=
  NilZero.string_of_int (Z.to_int n).

(** ** Plain objects *)

Module Obj.

Fixpoint lookup (k : string) (o : obj) : option jsval :=
  match o with
  | [] => None
  | (k', v) :: r => if (k =? k')%string then Some v else lookup k r
  end.

(** [o[k]] *)
Definition get (k : string) (o : obj) : jsval :=
  match lookup k o with
  | Some v => v
  | None => JUndefined
  end.

(** [o.hasOwnProperty(k)] *)
Definition hasOwnProperty (k : string) (o : obj) : bool :=
  match lookup k o with
  | Some _ => true
  | None => false
  end.

(** [o[k] = v]: an existing property keeps its place, a new one is
    created last. *)
Fixpoint set (k : string) (v : jsval) (o : obj) : obj :=
  match o with
  | [] => [(k, v)]
  | (k', v') :: r =>
      if (k =? k')%string then (k, v) :: r else (k', v') :: set k v r
  end.

(** [delete o[k]] *)
Fixpoint delete (k : string) (o : obj) : obj :=
  match o with
  | [] => []
  | (k', v') :: r =>
      if (k =? k')%string then delete k r else (k', v') :: delete k r
  end.

(** The well-formedness of an object: property names are unique. *)
Definition wf (o : obj) : Prop := NoDup (map fst o).

(** *** Enumeration order of [for ... in] *)

Definition digit_of (c : ascii) : option N :=
  let n := N_of_ascii c in
  if ((48 <=? n) && (n <=? 57))%N then Some (n - 48)%N else None.

Fixpoint parse_digits (acc : N) (s : string) : option N :=
  match s with
  | EmptyString => Some acc
  | String c r =>
      match digit_of c with
      | Some d => parse_digits (acc * 10 + d)%N r
      | None => None
      end
  end.

(** A key is an array index when it is the canonical numeral of an
    integer below 2^32 - 1. *)
Definition array_index (s : string) : option N :=
  match s with
  | EmptyString => None
  | String c r =>
      if (Ascii.eqb c "0" && negb (r =? "")%string)%bool then None
      else match parse_digits 0 s with
           | Some n => if (n <? 4294967295)%N then Some n else None
           | None => None
           end
  end.

Fixpoint insert_index (i : N) (e : string * jsval)
         (l : list (N * (string * jsval))) : list (N * (string * jsval)) :=
  match l with
  | [] => [(i, e)]
  | (j, e') :: r =>
      if (i <? j)%N then (i, e) :: (j, e') :: r
      else (j, e') :: insert_index i e r
  end.

(** The array-index properties, ascending, and the others, in creation
    order. *)
Fixpoint split_keys (o : obj)
  : list (N * (string * jsval)) * list (string * jsval) :=
  match o with
  | [] => ([], [])
  | e :: r =>
      let (ix, named) := split_keys r in
      match array_index (fst e) with
      | Some i => (insert_index i e ix, named)
      | None => (ix, e :: named)
      end
  end.

Definition enumerate (o : obj) : obj :=
  let (ix, named) := split_keys o in (map snd ix ++ named)%list.

(** The keys a [for (let key in o)] loop visits, in order. *)
Definition for_in_keys (o : obj) : list string := map fst (enumerate o).

End Obj.

(** [encodeURIComponent]: every byte outside [A-Z a-z 0-9 - _ . ! ~ * ' ( )]
    becomes [%XX] with upper-case hexadecimal digits. *)
Definition uri_unreserved (c : ascii) : bool :=
  let n := N_of_ascii c in
  (((65 <=? n) && (n <=? 90)) || ((97 <=? n) && (n <=? 122))
   || ((48 <=? n) && (n <=? 57))
   || (n =? 45) || (n =? 95) || (n =? 46) || (n =? 33) || (n =? 126)
   || (n =? 42) || (n =? 39) || (n =? 40) || (n =? 41))%N.

Definition hex_digit (n : N) : ascii :=
  if (n <? 10)%N then ascii_of_N (48 + n) else ascii_of_N (55 + n).

Fixpoint encodeURIComponent (s : string) : string :=
  match s with
  | EmptyString => EmptyString
  | String c r =>
      if uri_unreserved c then String c (encodeURIComponent r)
      else
        let n := N_of_ascii c in
        String "%" (String (hex_digit (n / 16)) (String (hex_digit (n mod 16))
                                                        (encodeURIComponent r)))
  end.

(** ** Event handlers installed in [xhr.onreadystatechange]

    Each variant is one of the arrow functions the source assigns to the
    slot; [this] is the instance at the time the transport calls it. *)
Inductive listener : Type :=
| NoListener
| ChangeListener (handler : jsval)
| ReadyListener (handler : jsval)
| SuccessListener (successHandler errorHandler : jsval)
| PromiseListener.

(** ** The transport *)

Module XMLHttpRequest.

(** A method invocation received by the transport. *)
Inductive call : Type :=
| Open (method url : jsval) (async : bool) (userName password : jsval)
| SetRequestHeader (name : string) (value : jsval)
| Send (body : option jsval)
| Abort.

Record t : Type := mk {
  readyState : Z;
  status : Z;
  responseType : string;
  response : jsval;
  timeout : Z;
  onreadystatechange : listener;
  ontimeout : option jsval;
  calls : list call
}.

(** [XMLHttpRequest.DONE], also [xhr.DONE]. *)
Definition DONE : Z := 4.

(** [new XMLHttpRequest()] *)
Definition new : t :=
  mk 0 0 "" (JStr "") 0 NoListener None [].

Definition set_responseType (v : string) (x : t) : t :=
  mk (readyState x) (status x) v (response x) (timeout x)
     (onreadystatechange x) (ontimeout x) (calls x).

Definition set_timeout (v : Z) (x : t) : t :=
  mk (readyState x) (status x) (responseType x) (response x) v
     (onreadystatechange x) (ontimeout x) (calls x).

Definition set_onreadystatechange (l : listener) (x : t) : t :=
  mk (readyState x) (status x) (responseType x) (response x) (timeout x)
     l (ontimeout x) (calls x).

Definition set_ontimeout (h : jsval) (x : t) : t :=
  mk (readyState x) (status x) (responseType x) (response x) (timeout x)
     (onreadystatechange x) (Some h) (calls x).

(** The transport receives a method invocation.  Only the invocation is
    recorded: how the transport reacts to it is not part of the program, so
    nothing is to be read from the ready state, the status or the response
    after an invocation until the transport reports. *)
Definition invoke (c : call) (x : t) : t :=
  mk (readyState x) (status x) (responseType x) (response x) (timeout x)
     (onreadystatechange x) (ontimeout x) (calls x ++ [c])%list.

(** The transport reports progress: it updates what it exposes of the
    exchange and keeps the installed handlers. *)
Definition progress (rs st : Z) (resp : jsval) (x : t) : t :=
  mk rs st (responseType x) resp (timeout x)
     (onreadystatechange x) (ontimeout x) (calls x).

End XMLHttpRequest.

(** ** The [XHR] instance *)

Record XHR : Type := mkXHR {
  xhr : XMLHttpRequest.t;
  method : jsval;
  url : jsval;
  postData : jsval;
  userName : jsval;
  password : jsval;
  headers : obj;
  data : obj
}.

Definition with_xhr (f : XMLHttpRequest.t -> XMLHttpRequest.t) (c : XHR) : XHR :=
  mkXHR (f (xhr c)) (method c) (url c) (postData c) (userName c) (password c)
        (headers c) (data c).

Definition with_headers (f : obj -> obj) (c : XHR) : XHR :=
  mkXHR (xhr c) (method c) (url c) (postData c) (userName c) (password c)
        (f (headers c)) (data c).

Definition with_data (f : obj -> obj) (c : XHR) : XHR :=
  mkXHR (xhr c) (method c) (url c) (postData c) (userName c) (password c)
        (headers c) (f (data c)).

(** [new XHR(url, postData, method)] *)
Definition new_XHR (url' postData' method' : jsval) : XHR :=
  mkXHR XMLHttpRequest.new
        (js_or method' (JStr ""))
        (js_or url' (JStr ""))
        (js_or postData' JUndefined)
        JUndefined JUndefined [] [].

Definition ERR_NONE : Z := 0.
Definition ERR_CONNECTION : Z := 1.
Definition ERR_HTTPSTATUS : Z := 2.
Definition ERR_BODYTYPE : Z := 3.

(** [reset(url, postData, method)] *)
Definition reset (url' postData' method' : jsval) (c : XHR) : XHR :=
  mkXHR (xhr c)
        (js_or method' (JStr ""))
        (js_or url' (JStr ""))
        (js_or postData' JUndefined)
        (userName c) (password c) (headers c) (data c).

(** [httpAuth(userName, password)] *)
Definition httpAuth (userName' password' : jsval) (c : XHR) : XHR :=
  mkXHR (xhr c) (method c) (url c) (postData c) userName' password'
        (headers c) (data c).

(** [setTimeout(msec)] *)
Definition setTimeout (msec : jsval) (c : XHR) : XHR :=
  with_xhr (XMLHttpRequest.set_timeout
              (match msec with
               | JNum n => if 0 <? n then n else 0
               | _ => 0
               end)) c.

(** ** Plain objects as dictionaries

    [this.headers], [this.data] and the argument of [setCookies] are plain
    objects used as dictionaries.  Two properties of [Object.prototype]
    reach the source through them: the method [hasOwnProperty], which an
    own property of that name shadows, and the accessor [__proto__], whose
    setter runs on an assignment when the object has no own property of
    that name. *)

(** What [o.hasOwnProperty] evaluates to. *)
Inductive callee : Type :=
| Builtin                     (* [Object.prototype.hasOwnProperty] *)
| UserFunction (f : jsval)    (* an own property that holds a function *)
| NotCallable (v : jsval).    (* an own property that holds anything else *)

Definition hasOwnProperty_callee (o : obj) : callee :=
  match Obj.lookup "hasOwnProperty" o with
  | None => Builtin
  | Some (JFunction f) => UserFunction (JFunction f)
  | Some v => NotCallable v
  end.

(** What [o[k] = v] does, outside strict mode. *)
Inductive assigned : Type :=
| Stored (o' : obj)      (* the own properties afterwards *)
| PrototypeChanged.      (* the setter of [__proto__] replaced the prototype *)

(** [o[k] = v]: an own property is updated; otherwise the setter of
    [__proto__] takes an object or [null] as the new prototype and ignores
    any other value; any other name becomes a new own property. *)
Definition obj_assign (k : string) (v : jsval) (o : obj) : assigned :=
  if Obj.hasOwnProperty k o then Stored (Obj.set k v o)
  else if (k =? "__proto__")%string then
    match v with
    | JNull | JObject _ | JFunction _ | JError _ => PrototypeChanged
    | _ => Stored o
    end
  else Stored (Obj.set k v o).

(** How a call of [setData], [setHeader] or [setCookies] ends. *)
Inductive ending : Type :=
| ReturnsThis
| ThrowsTypeError    (* [o.hasOwnProperty] is not a function *)
| LeavesModel.       (* a function of the caller is called, or the prototype
                        of the object is replaced *)

(** [setData(name, value)]: the instance, and how the call ends.  Where the
    call throws or leaves the model, the instance is as it is at that
    point. *)
Definition setData_call (name value : jsval) (c : XHR) : XHR * ending :=
  if ((js_typeof name =? "string")%string && truthy (js_length name))%bool then
    match value with
    | JUndefined =>
        match hasOwnProperty_callee (data c) with
        | Builtin =>
            if Obj.hasOwnProperty (str_value name) (data c)
            then (with_data (Obj.delete (str_value name)) c, ReturnsThis)
            else (c, ReturnsThis)
        | UserFunction _ => (c, LeavesModel)
        | NotCallable _ => (c, ThrowsTypeError)
        end
    | _ =>
        match obj_assign (str_value name) value (data c) with
        | Stored d => (with_data (fun _ => d) c, ReturnsThis)
        | PrototypeChanged => (c, LeavesModel)
        end
    end
  else (c, ReturnsThis).

(** The instance after [setData(name, value)]. *)
Definition setData (name value : jsval) (c : XHR) : XHR :=
  fst (setData_call name value c).

(** [setHeader(name, value)]: the instance, and how the call ends. *)
Definition setHeader_call (name value : jsval) (c : XHR) : XHR * ending :=
  if ((js_typeof name =? "string")%string && truthy (js_length name))%bool then
    if ((js_typeof value =? "string")%string && truthy (js_length value))%bool
    then
      match obj_assign (str_value name) value (headers c) with
      | Stored h => (with_headers (fun _ => h) c, ReturnsThis)
      | PrototypeChanged => (c, LeavesModel)
      end
    else
      match hasOwnProperty_callee (headers c) with
      | Builtin =>
          if Obj.hasOwnProperty (str_value name) (headers c)
          then (with_headers (Obj.delete (str_value name)) c, ReturnsThis)
          else (c, ReturnsThis)
      | UserFunction _ => (c, LeavesModel)
      | NotCallable _ => (c, ThrowsTypeError)
      end
  else (c, ReturnsThis).

(** The instance after [setHeader(name, value)]. *)
Definition setHeader (name value : jsval) (c : XHR) : XHR :=
  fst (setHeader_call name value c).

(** ** User-level helpers *)

(** [isCompleted()] *)
Definition isCompleted (c : XHR) : bool :=
  (XMLHttpRequest.readyState (xhr c) =? XMLHttpRequest.DONE)
  || (XMLHttpRequest.readyState (xhr c) =? XMLHttpRequest.DONE).

(** [status()] *)
Definition status (c : XHR) : Z := XMLHttpRequest.status (xhr c).

(** [response()] *)
Definition response (c : XHR) : jsval := XMLHttpRequest.response (xhr c).

(** [isStatusOK()] *)
Definition isStatusOK (c : XHR) : bool :=
  (200 <=? XMLHttpRequest.status (xhr c))
  && (XMLHttpRequest.status (xhr c) <? 300).

(** [isSuccessResponse()] *)
Definition isSuccessResponse (c : XHR) : bool :=
  isStatusOK c
  && (negb (truthy (JStr (XMLHttpRequest.responseType (xhr c))))
      || not_null_or_undefined (XMLHttpRequest.response (xhr c))).

(** [errorState(asString)] *)
Definition errorState (asString : jsval) (c : XHR) : jsval :=
  if negb (truthy (JNum (status c))) then
    if truthy asString then JStr "Connection failed" else JNum ERR_CONNECTION
  else if negb (isStatusOK c) then
    if truthy asString then JStr ("HTTP " ++ number_to_string (status c))
    else JNum ERR_HTTPSTATUS
  else if negb (isSuccessResponse c) then
    if truthy asString then JStr "Unexpected response body format"
    else JNum ERR_BODYTYPE
  else
    if truthy asString then JStr "No error" else JNum ERR_NONE.

(** ** Cookies *)

(** The own enumerable properties a [for ... in] loop over [v] can see. *)
Definition props_of (v : jsval) : obj :=
  match v with
  | JObject o => o
  | _ => []
  end.

(** The body of the loop of [setCookies]: what one property pushes onto
    [encoded]. *)
Definition push_cookie (cookies : obj) (encoded : list string) (name : string)
  : list string :=
  if (Obj.hasOwnProperty name cookies
      && (js_typeof (Obj.get name cookies) =? "string")%string
      && truthy (js_length (Obj.get name cookies)))%bool
  then (encoded
        ++ [(name ++ "=" ++ encodeURIComponent (str_value (Obj.get name cookies)))%string])%list
  else encoded.

(** The loop of [setCookies]: each turn calls [cookies.hasOwnProperty],
    and stops the call where that is not the builtin. *)
Fixpoint encode_loop (cookies : obj) (keys : list string) (encoded : list string)
  : list string + ending :=
  match keys with
  | [] => inl encoded
  | name :: rest =>
      match hasOwnProperty_callee cookies with
      | Builtin => encode_loop cookies rest (push_cookie cookies encoded name)
      | UserFunction _ => inr LeavesModel
      | NotCallable _ => inr ThrowsTypeError
      end
  end.

(** [setCookies(cookies)]: the instance, and how the call ends. *)
Definition setCookies_call (cookies : jsval) (c : XHR) : XHR * ending :=
  match (if (js_typeof cookies =? "object")%string
         then encode_loop (props_of cookies)
                          (Obj.for_in_keys (props_of cookies)) []
         else inl [])
  with
  | inr stop => (c, stop)
  | inl encoded =>
      if truthy (JNum (Z.of_nat (List.length encoded)))
      then (with_headers (Obj.set "Cookie" (JStr (String.concat "; " encoded))) c,
            ReturnsThis)
      else
        match hasOwnProperty_callee (headers c) with
        | Builtin =>
            if Obj.hasOwnProperty "Cookie" (headers c)
            then (with_headers (Obj.delete "Cookie") c, ReturnsThis)
            else (c, ReturnsThis)
        | UserFunction _ => (c, LeavesModel)
        | NotCallable _ => (c, ThrowsTypeError)
        end
  end.

(** The instance after [setCookies(cookies)]. *)
Definition setCookies (cookies : jsval) (c : XHR) : XHR :=
  fst (setCookies_call cookies c).

(** ** Event handlers *)

(** What a run of the installed handler does that the caller can see. *)
Inductive event : Type :=
| HandlerCall (handler : jsval)   (* [handler.call(this, this)] *)
| Resolve                         (* [resolve(this)] *)
| Reject.                         (* [reject(this)] *)

(** [(typeof handler == 'function') && handler.call(this, this)] *)
Definition call_if_function (handler : jsval) : list event :=
  if (js_typeof handler =? "function")%string then [HandlerCall handler] else [].

(** [onTimeout(handler)] *)
Definition onTimeout (handler : jsval) (c : XHR) : XHR :=
  with_xhr (XMLHttpRequest.set_ontimeout handler) c.

(** [onChange(handler)] *)
Definition onChange (handler : jsval) (c : XHR) : XHR :=
  with_xhr (XMLHttpRequest.set_onreadystatechange (ChangeListener handler)) c.

(** [onReady(handler)] *)
Definition onReady (handler : jsval) (c : XHR) : XHR :=
  with_xhr (XMLHttpRequest.set_onreadystatechange (ReadyListener handler)) c.

(** [onSuccess(successHandler, errorHandler)] *)
Definition onSuccess (successHandler errorHandler : jsval) (c : XHR) : XHR :=
  with_xhr (XMLHttpRequest.set_onreadystatechange
              (SuccessListener successHandler errorHandler)) c.

(** The transport calls [xhr.onreadystatechange(event)] on the instance as
    it is now: the bodies of the arrow functions of [onChange], [onReady],
    [onSuccess] and [promise]. *)
Definition readystatechange (c : XHR) : list event :=
  match XMLHttpRequest.onreadystatechange (xhr c) with
  | NoListener => []
  | ChangeListener handler => call_if_function handler
  | ReadyListener handler =>
      if isCompleted c then call_if_function handler else []
  | SuccessListener successHandler errorHandler =>
      if isCompleted c then
        if isSuccessResponse c then call_if_function successHandler
        else call_if_function errorHandler
      else []
  | PromiseListener =>
      if isCompleted c then
        if isSuccessResponse c then [Resolve] else [Reject]
      else []
  end.

(** ** Wrappers *)

(** What [responseType(value)] returns: a value, or [this]. *)
Inductive returned : Type :=
| Value (v : jsval)
| This.

(** [responseType(value)] *)
Definition responseType (value : jsval) (c : XHR) : XHR * returned :=
  if negb (js_typeof value =? "string")%string
  then (c, Value (JStr (XMLHttpRequest.responseType (xhr c))))
  else (with_xhr (XMLHttpRequest.set_responseType (str_value value)) c, This).

(** ** [send]: state and exceptions *)

Inductive completion (A : Type) : Type :=
| Normal (a : A)
| Throw (e : jsval).
Arguments Normal {A} a.
Arguments Throw {A} e.

(** A computation on the instance: the instance afterwards, and how the
    computation completed. *)
Definition M (A : Type) : Type := XHR -> XHR * completion A.

Definition ret {A} (a : A) : M A := fun c => (c, Normal a).

Definition bind {A B} (m : M A) (k : A -> M B) : M B :=
  fun c =>
    match m c with
    | (c', Normal a) => k a c'
    | (c', Throw e) => (c', Throw e)
    end.

Definition throw {A} (e : jsval) : M A := fun c => (c, Throw e).

(** [this.field] *)
Definition read {A} (field : XHR -> A) : M A := fun c => (c, Normal (field c)).

Notation "x <- m ;; k" := (bind m (fun x => k))
  (at level 61, m at next level, right associativity).
Notation "m ;; k" := (bind m (fun _ => k))
  (at level 61, right associativity).

(** [this.xhr.open(method, url, async, userName, password)] *)
Definition xhr_open (m u : jsval) (async : bool) (un pw : jsval) : M unit :=
  fun c => (with_xhr (XMLHttpRequest.invoke (XMLHttpRequest.Open m u async un pw)) c,
            Normal tt).

(** [this.xhr.setRequestHeader(name, value)] *)
Definition xhr_setRequestHeader (name : string) (value : jsval) : M unit :=
  fun c => (with_xhr (XMLHttpRequest.invoke (XMLHttpRequest.SetRequestHeader name value)) c,
            Normal tt).

(** [this.xhr.send(body)]; [None] is the call without argument. *)
Definition xhr_send (body : option jsval) : M unit :=
  fun c => (with_xhr (XMLHttpRequest.invoke (XMLHttpRequest.Send body)) c, Normal tt).

(** [for (let key in o) body] *)
Fixpoint for_in (keys : list string) (body : string -> M unit) : M unit :=
  match keys with
  | [] => ret tt
  | key :: rest => body key ;; for_in rest body
  end.

(** [for (let key in this.headers) this.xhr.setRequestHeader(key, this.headers[key])] *)
Definition send_headers : M unit :=
  hs <- read headers ;;
  for_in (Obj.for_in_keys hs)
         (fun key => h <- read headers ;; xhr_setRequestHeader key (Obj.get key h)).

(** [send(postData)]; [Normal tt] is [return this]. *)
Definition send (postData' : jsval) : M unit :=
  u <- read url ;;
  if negb (truthy u) then
    throw (JError "The request URL is empty")
  else
    stored <- read postData ;;
    if truthy (js_or postData' stored) then
      m <- read method ;;
      un <- read userName ;;
      pw <- read password ;;
      xhr_open (js_or m (JStr "POST")) u true un pw ;;
      send_headers ;;
      stored' <- read postData ;;
      xhr_send (Some (js_or postData' stored'))
    else
      m <- read method ;;
      un <- read userName ;;
      pw <- read password ;;
      xhr_open (js_or m (JStr "GET")) u true un pw ;;
      send_headers ;;
      xhr_send None.

(** [abort()] *)
Definition abort (c : XHR) : XHR :=
  with_xhr (XMLHttpRequest.invoke XMLHttpRequest.Abort) c.

(** How the promise returned by [promise] stands when [promise] returns:
    the executor threw, or the request is under way. *)
Inductive promise_state : Type :=
| Pending
| Rejected (reason : jsval).

(** [promise(postData)] *)
Definition promise (postData' : jsval) (c : XHR) : XHR * promise_state :=
  match send postData'
             (with_xhr (XMLHttpRequest.set_onreadystatechange PromiseListener) c)
  with
  | (c', Normal _) => (c', Pending)
  | (c', Throw e) => (c', Rejected e)
  end.

(** ** Vocabulary of the statements *)

(** The [setRequestHeader] invocations of the loop of [send], one per
    property of [h], in enumeration order. *)
Definition header_calls (h : obj) : list XMLHttpRequest.call :=
  map (fun key => XMLHttpRequest.SetRequestHeader key (Obj.get key h))
      (Obj.for_in_keys h).

(** A value that is a string with at least one character. *)
Definition nonempty_string (v : jsval) : bool :=
  match v with
  | JStr s => negb (s =? "")%string
  | _ => false
  end.

(** [name=encodeURIComponent(value)] for one property of a cookie map. *)
Definition cookie_entry (e : string * jsval) : string :=
  (fst e ++ "=" ++ encodeURIComponent (str_value (snd e)))%string.

(** The encoded cookies of a map: its properties with non-empty string
    values, in enumeration order. *)
Definition encoded_cookies (o : obj) : list string :=
  map cookie_entry (filter (fun e => nonempty_string (snd e)) (Obj.enumerate o)).

(** The method [send] opens the transport with, by truthiness of the two
    bodies. *)
Definition inferred_method (m body stored : jsval) : jsval :=
  if truthy m then m
  else if (truthy body || truthy stored)%bool then JStr "POST"
  else JStr "GET".

(** The body [send] hands to the transport, by truthiness. *)
Definition chosen_body (body stored : jsval) : option jsval :=
  if truthy body then Some body
  else if truthy stored then Some stored
  else None.

(** An argument that is present, whatever its truthiness: neither
    [undefined] nor [null]. *)
Definition present (v : jsval) : bool :=
  match v with
  | JUndefined | JNull => false
  | _ => true
  end.

(** The body selection read by presence: the per-dispatch body if present,
    else the stored body if present, else none. *)
Definition body_by_presence (body stored : jsval) : option jsval :=
  if present body then Some body
  else if present stored then Some stored
  else None.

(** The success classification with "text" classed with the default
    response type. *)
Definition success_with_text_as_default (c : XHR) : Prop :=
  200 <= status c < 300 /\
  (XMLHttpRequest.responseType (xhr c) = "text" \/
   XMLHttpRequest.responseType (xhr c) = "" \/
   (response c <> JNull /\ response c <> JUndefined)).

(** The error codes and messages of [errorState]. *)
Definition error_report (asString : jsval) (code : Z) (message : string) : jsval :=
  if truthy asString then JStr message else JNum code.

(** The instance after its transport received the invocations [l], in
    order. *)
Definition received (l : list XMLHttpRequest.call) (c : XHR) : XHR :=
  with_xhr (fun x => fold_left (fun x' i => XMLHttpRequest.invoke i x') l x) c.

(** An instance whose transport has settled with the given outcome. *)
Definition settled (st : Z) (rtype : string) (resp : jsval) (c : XHR) : XHR :=
  with_xhr (fun x => XMLHttpRequest.progress XMLHttpRequest.DONE st resp
                       (XMLHttpRequest.set_responseType rtype x)) c.

(** A configured instance used in the examples. *)
Definition sample : XHR :=
  setHeader (JStr "X-Test") (JStr "OK")
            (new_XHR (JStr "/items") (JStr "stored") JUndefined).

(** ** Appending one cookie *)

(** ToString on the primitive values.  The conversion of an object or of a
    function runs code of its own ([toString], [valueOf]) and has no value
    here. *)
Definition js_primitive_to_string (v : jsval) : option string :=
  match v with
  | JUndefined => Some "undefined"
  | JNull => Some "null"
  | JBool true => Some "true"
  | JBool false => Some "false"
  | JNum n => Some (number_to_string n)
  | JNaN => Some "NaN"
  | JStr s => Some s
  | JObject _ | JFunction _ | JError _ => None
  end.

(** [v + s] for a string [s]: the concatenation of the string of [v] and
    [s]. *)
Definition js_plus_string (v : jsval) (s : string) : option jsval :=
  match js_primitive_to_string v with
  | Some t => Some (JStr (t ++ s))
  | None => None
  end.

(** [setCookie(name, value)]; [None] when the stored "Cookie" value is an
    object or a function, whose conversion to a string is not modelled. *)
Definition setCookie (name value : jsval) (c : XHR) : option XHR :=
  if ((js_typeof name =? "string")%string && truthy (js_length name)
      && (js_typeof value =? "string")%string && truthy (js_length value))%bool
  then
    if Obj.hasOwnProperty "Cookie" (headers c) then
      match js_plus_string
              (Obj.get "Cookie" (headers c))
              ("; " ++ str_value name ++ "=" ++ encodeURIComponent (str_value value))
      with
      | Some v => Some (with_headers (Obj.set "Cookie" v) c)
      | None => None
      end
    else
      Some (with_headers
              (Obj.set "Cookie"
                       (JStr (str_value name ++ "="
                              ++ encodeURIComponent (str_value value)))) c)
  else Some c.

(** [setCookie] for each property of a list, in order. *)
Fixpoint setCookie_each (l : list (string * jsval)) (c : XHR) : option XHR :=
  match l with
  | [] => Some c
  | (name, value) :: rest =>
      match setCookie (JStr name) value c with
      | Some c' => setCookie_each rest c'
      | None => None
      end
  end.

(** ** More wrappers and events *)

(** [readyState()] *)
Definition readyState (c : XHR) : Z := XMLHttpRequest.readyState (xhr c).

(** The transport calls [xhr.ontimeout(event)]: the body of the arrow
    function of [onTimeout]. *)
Definition timeout_event (c : XHR) : list event :=
  match XMLHttpRequest.ontimeout (xhr c) with
  | Some handler => call_if_function handler
  | None => []
  end.

(** ** Settling a promise *)

(** How a promise stands.  A promise settles once: a later [resolve] or
    [reject] changes nothing. *)
Inductive settlement : Type :=
| StillPending
| FulfilledWithThis
| RejectedWithThis
| RejectedWith (reason : jsval).

Definition settlement_of (p : promise_state) : settlement :=
  match p with
  | Pending => StillPending
  | Rejected reason => RejectedWith reason
  end.

Definition settle (s : settlement) (e : event) : settlement :=
  match s, e with
  | StillPending, Resolve => FulfilledWithThis
  | StillPending, Reject => RejectedWithThis
  | _, _ => s
  end.

(** The transport reports [(readyState, status, response)] one after the
    other and calls the state-change handler after each report. *)
Fixpoint notify (reports : list (Z * Z * jsval)) (c : XHR) (s : settlement)
  : settlement :=
  match reports with
  | [] => s
  | (rs, st, resp) :: rest =>
      notify rest (with_xhr (XMLHttpRequest.progress rs st resp) c)
             (fold_left settle
                        (readystatechange
                           (with_xhr (XMLHttpRequest.progress rs st resp) c))
                        s)
  end.

(** ** Sequences of calls on one instance *)

(** A call of the interface, or a progress report of the transport. *)
Inductive action : Type :=
| DoReset (url' postData' method' : jsval)
| DoHttpAuth (userName' password' : jsval)
| DoSetTimeout (msec : jsval)
| DoSetData (name value : jsval)
| DoSetHeader (name value : jsval)
| DoSetCookie (name value : jsval)
| DoSetCookies (cookies : jsval)
| DoOnTimeout (handler : jsval)
| DoOnChange (handler : jsval)
| DoOnReady (handler : jsval)
| DoOnSuccess (successHandler errorHandler : jsval)
| DoPromise (postData' : jsval)
| DoResponseType (value : jsval)
| DoSend (postData' : jsval)
| DoAbort
| TransportProgress (rs st : Z) (resp : jsval).

(** The instance after one action; a call that throws or leaves the model
    leaves the instance as it is at that point. *)
Definition perform (a : action) (c : XHR) : option XHR :=
  match a with
  | DoReset u b m => Some (reset u b m c)
  | DoHttpAuth u p => Some (httpAuth u p c)
  | DoSetTimeout msec => Some (setTimeout msec c)
  | DoSetData name value => Some (setData name value c)
  | DoSetHeader name value => Some (setHeader name value c)
  | DoSetCookie name value => setCookie name value c
  | DoSetCookies cookies => Some (setCookies cookies c)
  | DoOnTimeout h => Some (onTimeout h c)
  | DoOnChange h => Some (onChange h c)
  | DoOnReady h => Some (onReady h c)
  | DoOnSuccess sh eh => Some (onSuccess sh eh c)
  | DoPromise b => Some (fst (promise b c))
  | DoResponseType v => Some (fst (responseType v c))
  | DoSend b => Some (fst (send b c))
  | DoAbort => Some (abort c)
  | TransportProgress rs st resp =>
      Some (with_xhr (XMLHttpRequest.progress rs st resp) c)
  end.

Fixpoint perform_all (l : list action) (c : XHR) : option XHR :=
  match l with
  | [] => Some c
  | a :: rest =>
      match perform a c with
      | Some c' => perform_all rest c'
      | None => None
      end
  end.

(** What the interface keeps true of an instance: header names are unique
    and non-empty, header values are non-empty strings; user data names are
    unique and non-empty, user data values are not [undefined]; the URL and
    the method are truthy or the empty string, the body is truthy or
    [undefined]; the timeout is not negative. *)
Definition header_ok (e : string * jsval) : Prop :=
  fst e <> "" /\ nonempty_string (snd e) = true.

Definition datum_ok (e : string * jsval) : Prop :=
  fst e <> "" /\ snd e <> JUndefined.

Record configured (c : XHR) : Prop := mk_configured {
  headers_wf : Obj.wf (headers c);
  headers_ok : Forall header_ok (headers c);
  data_wf : Obj.wf (data c);
  data_ok : Forall datum_ok (data c);
  url_ok : truthy (url c) = true \/ url c = JStr "";
  method_ok : truthy (method c) = true \/ method c = JStr "";
  postData_ok : truthy (postData c) = true \/ postData c = JUndefined;
  timeout_ok : 0 <= XMLHttpRequest.timeout (xhr c)
}.

(** A property name that is not an array index. *)
Definition named_key (e : string * jsval) : Prop := Obj.array_index (fst e) = None.

(** The characters that separate cookies, and names from values, in a
    "Cookie" header. *)
Definition cookie_separator (ch : ascii) : bool :=
  (Ascii.eqb ch ";" || Ascii.eqb ch " " || Ascii.eqb ch "="
   || Ascii.eqb ch ",")%bool.

(** The characters [encodeURIComponent] lets through or produces. *)
Definition uri_safe (ch : ascii) : bool :=
  (uri_unreserved ch || Ascii.eqb ch "%")%bool.

Fixpoint string_forallb (p : ascii -> bool) (s : string) : bool :=
  match s with
  | EmptyString => true
  | String ch r => (p ch && string_forallb p r)%bool
  end.

(** The "Cookie" header holds the encoded cookies [acc], joined. *)
Definition cookie_header_is (acc : list string) (c : XHR) : Prop :=
  Obj.lookup "Cookie" (headers c)
  = match acc with
    | [] => None
    | _ :: _ => Some (JStr (String.concat "; " acc))
    end.

(** The invocations of one [send(body)] on an instance with a non-empty
    URL. *)
Definition dispatch_calls (body : jsval) (c : XHR) : list XMLHttpRequest.call :=
  (XMLHttpRequest.Open (inferred_method (method c) body (postData c))
                       (url c) true (userName c) (password c)
   :: header_calls (headers c)
   ++ [XMLHttpRequest.Send (chosen_body body (postData c))])%list.

(** * Properties *)

(** ** Runs on concrete inputs *)

Example errorState_503 :
  errorState (JBool true) (settled 503 "" JNull sample) = JStr "HTTP 503".
Proof. reflexivity. Qed.

Example encodeURIComponent_reserved :
  encodeURIComponent "a b&c=d/e;f" = "a%20b%26c%3Dd%2Fe%3Bf".
Proof. reflexivity. Qed.

Example for_in_keys_order :
  Obj.for_in_keys
    [("b", JNull); ("10", JNull); ("a", JNull); ("2", JNull); ("01", JNull)]
  = ["2"; "10"; "b"; "a"; "01"]%string.
Proof. reflexivity. Qed.

Example send_get_without_body :
  XMLHttpRequest.calls
    (xhr (fst (send JUndefined
                    (httpAuth (JStr "u") (JStr "p")
                              (new_XHR (JStr "/items") JUndefined JUndefined)))))
  = [XMLHttpRequest.Open (JStr "GET") (JStr "/items") true (JStr "u") (JStr "p");
     XMLHttpRequest.Send None].
Proof. reflexivity. Qed.

Example promise_without_url :
  snd (promise JUndefined (new_XHR JUndefined JUndefined JUndefined))
  = Rejected (JError "The request URL is empty").
Proof. reflexivity. Qed.

Example onChange_fires_before_done :
  readystatechange
    (with_xhr (XMLHttpRequest.progress 2 200 (JStr ""))
              (onChange (JFunction "h") sample))
  = [HandlerCall (JFunction "h")]
  /\ readystatechange
       (with_xhr (XMLHttpRequest.progress 2 200 (JStr ""))
                 (onReady (JFunction "h") sample))
     = [].
Proof. split; reflexivity. Qed.

(** ** Values *)

Lemma truthy_string s : truthy (JStr s) = true <-> s <> "".
Proof.
  simpl. rewrite negb_true_iff. apply String.eqb_neq.
Qed.

Lemma truthy_length v :
  ((js_typeof v =? "string")%string && truthy (js_length v))%bool
  = nonempty_string v.
Proof.
  destruct v as [ | | b | n | | s | o | f | m]; try reflexivity.
  destruct s; reflexivity.
Qed.

Lemma nonempty_string_inv v :
  nonempty_string v = true <-> exists s, v = JStr s /\ s <> "".
Proof.
  split.
  - destruct v; simpl; try discriminate. intros H. eexists. split; [reflexivity|].
    now apply truthy_string.
  - intros (s & -> & Hs). now apply truthy_string.
Qed.

Lemma js_or_truthy a b : truthy a = true -> js_or a b = a.
Proof. unfold js_or. now intros ->. Qed.

Lemma js_or_falsy a b : truthy a = false -> js_or a b = b.
Proof. unfold js_or. now intros ->. Qed.

Lemma truthy_js_or a b : truthy (js_or a b) = (truthy a || truthy b)%bool.
Proof. unfold js_or. destruct (truthy a) eqn:E; simpl; auto. Qed.

(** ** Objects *)

Module ObjFacts.
Import Obj.

Lemma lookup_set_same k v o : lookup k (set k v o) = Some v.
Proof.
  induction o as [|[k' v'] r IH]; simpl.
  - now rewrite String.eqb_refl.
  - destruct (k =? k')%string eqn:E; simpl.
    + now rewrite String.eqb_refl.
    + now rewrite E.
Qed.

Lemma lookup_set_other k k' v o :
  k' <> k -> lookup k' (set k v o) = lookup k' o.
Proof.
  intros Hne. induction o as [|[k0 v0] r IH]; simpl.
  - apply String.eqb_neq in Hne. now rewrite Hne.
  - destruct (k =? k0)%string eqn:E; simpl.
    + apply String.eqb_eq in E. subst k0.
      apply String.eqb_neq in Hne. now rewrite Hne.
    + now rewrite IH.
Qed.

Lemma lookup_delete_same k o : lookup k (delete k o) = None.
Proof.
  induction o as [|[k' v'] r IH]; simpl; auto.
  destruct (k =? k')%string eqn:E; simpl; auto. now rewrite E.
Qed.

Lemma lookup_delete_other k k' o :
  k' <> k -> lookup k' (delete k o) = lookup k' o.
Proof.
  intros Hne. induction o as [|[k0 v0] r IH]; simpl; auto.
  destruct (k =? k0)%string eqn:E; simpl.
  - apply String.eqb_eq in E. subst k0.
    apply String.eqb_neq in Hne. now rewrite Hne.
  - now rewrite IH.
Qed.

Lemma set_set k v1 v2 o : set k v2 (set k v1 o) = set k v2 o.
Proof.
  induction o as [|[k' v'] r IH]; simpl.
  - now rewrite String.eqb_refl.
  - destruct (k =? k')%string eqn:E; simpl.
    + now rewrite String.eqb_refl.
    + now rewrite E, IH.
Qed.

Lemma hasOwnProperty_delete k o : hasOwnProperty k (delete k o) = false.
Proof. unfold hasOwnProperty. now rewrite lookup_delete_same. Qed.

Lemma hasOwnProperty_set k v o : hasOwnProperty k (set k v o) = true.
Proof. unfold hasOwnProperty. now rewrite lookup_set_same. Qed.

Lemma delete_absent k o : lookup k o = None -> delete k o = o.
Proof.
  induction o as [|[k' v'] r IH]; simpl; auto.
  destruct (k =? k')%string; [discriminate|].
  intros H. now rewrite IH.
Qed.

Lemma lookup_In k v o : lookup k o = Some v -> In (k, v) o.
Proof.
  induction o as [|[k' v'] r IH]; simpl; [discriminate|].
  destruct (k =? k')%string eqn:E.
  - apply String.eqb_eq in E. subst k'. intros [= ->]. now left.
  - intros H. right. auto.
Qed.

Lemma In_lookup k v o : wf o -> In (k, v) o -> lookup k o = Some v.
Proof.
  unfold wf. induction o as [|[k' v'] r IH]; simpl; [tauto|].
  intros Hnd [Heq | Hin].
  - injection Heq as -> ->. now rewrite String.eqb_refl.
  - inversion Hnd as [|? ? Hnot Hnd']; subst.
    destruct (k =? k')%string eqn:E.
    + apply String.eqb_eq in E. subst k'. exfalso. apply Hnot.
      change k with (fst (k, v)). now apply in_map.
    + auto.
Qed.

(** *** [for ... in] visits every property once *)

Lemma insert_index_perm i e l : Permutation (insert_index i e l) ((i, e) :: l).
Proof.
  induction l as [|[j e'] r IH]; simpl; auto.
  destruct (i <? j)%N; auto.
  eapply perm_trans; [apply perm_skip, IH | apply perm_swap].
Qed.

Lemma split_keys_perm o :
  Permutation (map snd (fst (split_keys o)) ++ snd (split_keys o)) o.
Proof.
  induction o as [|e r IH]; simpl; auto.
  destruct (split_keys r) as [ix named] eqn:E. simpl in IH.
  destruct (array_index (fst e)); simpl.
  - eapply perm_trans.
    + apply Permutation_app_tail, Permutation_map, insert_index_perm.
    + simpl. now apply perm_skip.
  - eapply perm_trans; [apply Permutation_sym, Permutation_middle|].
    now apply perm_skip.
Qed.

Lemma enumerate_perm o : Permutation (enumerate o) o.
Proof.
  unfold enumerate. pose proof (split_keys_perm o) as H.
  now destruct (split_keys o).
Qed.

Lemma enumerate_In e o : In e (enumerate o) <-> In e o.
Proof.
  split; apply Permutation_in;
    [apply enumerate_perm | apply Permutation_sym, enumerate_perm].
Qed.

End ObjFacts.

(** ** Classification *)

Lemma isStatusOK_iff c : isStatusOK c = true <-> 200 <= status c < 300.
Proof.
  unfold isStatusOK, status. rewrite andb_true_iff, Z.leb_le, Z.ltb_lt. tauto.
Qed.

Lemma not_null_or_undefined_iff v :
  not_null_or_undefined v = true <-> v <> JNull /\ v <> JUndefined.
Proof.
  destruct v; simpl; split; intros H; try (split; discriminate);
    try reflexivity; try discriminate; destruct H as [H1 H2]; congruence.
Qed.

Lemma isSuccessResponse_iff c :
  isSuccessResponse c = true <->
  200 <= status c < 300 /\
  (XMLHttpRequest.responseType (xhr c) = "" \/
   (response c <> JNull /\ response c <> JUndefined)).
Proof.
  unfold isSuccessResponse.
  rewrite andb_true_iff, orb_true_iff, isStatusOK_iff,
    not_null_or_undefined_iff, negb_true_iff.
  assert (Hrt : truthy (JStr (XMLHttpRequest.responseType (xhr c))) = false
                <-> XMLHttpRequest.responseType (xhr c) = "").
  { simpl. rewrite negb_false_iff. apply String.eqb_eq. }
  rewrite Hrt. reflexivity.
Qed.

(** With a transport that hands out a string whenever the response type is
    "text", the "text" type classifies like the default one. *)
Lemma isSuccessResponse_text c :
  XMLHttpRequest.responseType (xhr c) = "text" ->
  js_typeof (response c) = "string" ->
  (isSuccessResponse c = true <-> 200 <= status c < 300).
Proof.
  intros Hrt Hty. rewrite isSuccessResponse_iff. split; [tauto|].
  intros H. split; [exact H|]. right.
  split; intros E; rewrite E in Hty; discriminate.
Qed.

(** C1, as stated, fails: with status 200, response type "text" and a null
    response the classification is a failure, although the status is in
    [200,300) and the response type is "text". *)
Lemma isSuccessResponse_text_null :
  isCompleted (settled 200 "text" JNull sample) = true
  /\ success_with_text_as_default (settled 200 "text" JNull sample)
  /\ isSuccessResponse (settled 200 "text" JNull sample) = false.
Proof.
  split; [reflexivity|]. split; [|reflexivity].
  split; [cbn; lia|]. left. reflexivity.
Qed.

(** C1, amended: in a terminal state [isSuccessResponse] is true iff the
    status is in [200,300) and (the response type is the empty default, or
    the decoded response is neither null nor undefined); status 200 with
    "json" and a non-null response is a success, status 200 with "json" and
    a null response is a failure. *)
Theorem isSuccessResponse_classification (c : XHR)
        (terminal : isCompleted c = true) :
  (isSuccessResponse c = true <->
   200 <= status c < 300 /\
   (XMLHttpRequest.responseType (xhr c) = "" \/
    (response c <> JNull /\ response c <> JUndefined)))
  /\ (status c = 200 -> XMLHttpRequest.responseType (xhr c) = "json" ->
      response c <> JNull -> response c <> JUndefined ->
      isSuccessResponse c = true)
  /\ (status c = 200 -> XMLHttpRequest.responseType (xhr c) = "json" ->
      response c = JNull -> isSuccessResponse c = false).
Proof.
  split; [apply isSuccessResponse_iff|]. split.
  - intros Hs _ Hn Hu. apply isSuccessResponse_iff. split; [lia|]. now right.
  - intros Hs Hrt Hn. apply not_true_is_false. intros H.
    apply isSuccessResponse_iff in H. destruct H as [_ [H | [H _]]].
    + rewrite Hrt in H. discriminate.
    + now apply H.
Qed.

Lemma isSuccessResponse_classification_witness :
  isCompleted (settled 200 "json" (JObject []) sample) = true
  /\ isSuccessResponse (settled 200 "json" (JObject []) sample) = true
  /\ isSuccessResponse (settled 200 "json" JNull sample) = false.
Proof.
  split; [reflexivity|]. split.
  - apply (isSuccessResponse_classification
             (settled 200 "json" (JObject []) sample) eq_refl);
      [reflexivity | reflexivity | discriminate | discriminate].
  - apply (isSuccessResponse_classification
             (settled 200 "json" JNull sample) eq_refl); reflexivity.
Defined.

(** C2: in a terminal state [errorState] checks, in this order: status 0
    gives CONNECTION ("Connection failed"); otherwise a status outside
    [200,300) gives HTTPSTATUS ("HTTP <status>"); otherwise a failed success
    classification gives BODYTYPE ("Unexpected response body format");
    otherwise NONE ("No error").  Status 0 gives CONNECTION whatever the
    response is, status 404 gives HTTPSTATUS whatever the response type. *)
Theorem errorState_precedence (c : XHR) (asString : jsval)
        (terminal : isCompleted c = true) :
  (status c = 0 ->
   errorState asString c
   = error_report asString ERR_CONNECTION "Connection failed")
  /\ (status c <> 0 -> ~ 200 <= status c < 300 ->
      errorState asString c
      = error_report asString ERR_HTTPSTATUS
                     ("HTTP " ++ number_to_string (status c)))
  /\ (200 <= status c < 300 -> isSuccessResponse c = false ->
      errorState asString c
      = error_report asString ERR_BODYTYPE "Unexpected response body format")
  /\ (200 <= status c < 300 -> isSuccessResponse c = true ->
      errorState asString c = error_report asString ERR_NONE "No error")
  /\ (status c = 404 ->
      errorState (JBool true) c = JStr "HTTP 404"
      /\ errorState (JBool false) c = JNum ERR_HTTPSTATUS).
Proof.
  unfold errorState, error_report.
  assert (Hz : truthy (JNum (status c)) = negb (status c =? 0)) by reflexivity.
  rewrite Hz, negb_involutive.
  split; [|split; [|split; [|split]]].
  - intros ->. reflexivity.
  - intros Hnz Hout. apply Z.eqb_neq in Hnz. rewrite Hnz.
    destruct (isStatusOK c) eqn:E; [|reflexivity].
    apply isStatusOK_iff in E. contradiction.
  - intros Hin Hfail.
    assert (Hnz : (status c =? 0) = false) by (apply Z.eqb_neq; lia).
    apply isStatusOK_iff in Hin. now rewrite Hnz, Hin, Hfail.
  - intros Hin Hok.
    assert (Hnz : (status c =? 0) = false) by (apply Z.eqb_neq; lia).
    apply isStatusOK_iff in Hin. now rewrite Hnz, Hin, Hok.
  - intros H404. unfold isStatusOK, status in *. rewrite H404.
    split; reflexivity.
Qed.

Lemma errorState_precedence_witness :
  isCompleted (settled 0 "json" (JObject []) sample) = true
  /\ errorState (JBool true) (settled 0 "json" (JObject []) sample)
     = JStr "Connection failed"
  /\ errorState (JBool true) (settled 404 "json" JNull sample)
     = JStr "HTTP 404"
  /\ errorState (JBool false) (settled 200 "json" JNull sample)
     = JNum 3.
Proof.
  split; [reflexivity|]. split; [|split].
  - apply (errorState_precedence
             (settled 0 "json" (JObject []) sample) (JBool true) eq_refl).
    reflexivity.
  - apply (errorState_precedence
             (settled 404 "json" JNull sample) (JBool true) eq_refl).
    reflexivity.
  - apply (errorState_precedence
             (settled 200 "json" JNull sample) (JBool false) eq_refl).
    + cbn. lia.
    + reflexivity.
Defined.

(** ** What the transport receives *)

Lemma received_nil c : received [] c = c.
Proof. now destruct c. Qed.

Lemma received_app l1 l2 c : received l2 (received l1 c) = received (l1 ++ l2) c.
Proof. unfold received, with_xhr. simpl. now rewrite fold_left_app. Qed.

Lemma received_one i c : with_xhr (XMLHttpRequest.invoke i) c = received [i] c.
Proof. reflexivity. Qed.

Lemma calls_fold l x :
  XMLHttpRequest.calls (fold_left (fun x' i => XMLHttpRequest.invoke i x') l x)
  = (XMLHttpRequest.calls x ++ l)%list.
Proof.
  revert x. induction l as [|i l IH]; intros x; simpl.
  - now rewrite app_nil_r.
  - rewrite IH. simpl. now rewrite <- app_assoc.
Qed.

Lemma calls_received l c :
  XMLHttpRequest.calls (xhr (received l c))
  = (XMLHttpRequest.calls (xhr c) ++ l)%list.
Proof. apply calls_fold. Qed.

(** Invocations change nothing of the transport but its record of them. *)
Lemma transport_received l c :
  xhr (received l c)
  = XMLHttpRequest.mk
      (XMLHttpRequest.readyState (xhr c)) (XMLHttpRequest.status (xhr c))
      (XMLHttpRequest.responseType (xhr c)) (XMLHttpRequest.response (xhr c))
      (XMLHttpRequest.timeout (xhr c))
      (XMLHttpRequest.onreadystatechange (xhr c))
      (XMLHttpRequest.ontimeout (xhr c))
      (XMLHttpRequest.calls (xhr c) ++ l)%list.
Proof.
  unfold received. simpl. generalize (xhr c). clear c.
  induction l as [|i l IH]; intros x; simpl.
  - rewrite app_nil_r. now destruct x.
  - rewrite IH. simpl. now rewrite <- app_assoc.
Qed.

Lemma for_in_headers keys c :
  for_in keys
         (fun key => h <- read headers ;; xhr_setRequestHeader key (Obj.get key h)) c
  = (received (map (fun key => XMLHttpRequest.SetRequestHeader
                                 key (Obj.get key (headers c))) keys) c,
     Normal tt).
Proof.
  revert c. induction keys as [|key rest IH]; intros c; simpl.
  - now rewrite received_nil.
  - unfold bind at 1. unfold bind at 1. unfold read, xhr_setRequestHeader.
    rewrite IH, received_one, received_app. reflexivity.
Qed.

Lemma send_headers_run c :
  send_headers c = (received (header_calls (headers c)) c, Normal tt).
Proof.
  unfold send_headers, bind at 1, read. apply for_in_headers.
Qed.

(** [send] with a non-empty URL, in one equation: the invocations the
    transport receives, and nothing else changes. *)
Lemma send_run body c :
  truthy (url c) = true ->
  send body c
  = (received
       (XMLHttpRequest.Open (inferred_method (method c) body (postData c))
                            (url c) true (userName c) (password c)
        :: header_calls (headers c)
        ++ [XMLHttpRequest.Send (chosen_body body (postData c))])%list c,
     Normal tt).
Proof.
  intros Hurl.
  unfold send, bind, read, xhr_open, xhr_send. rewrite Hurl. simpl.
  rewrite truthy_js_or.
  unfold inferred_method, chosen_body, js_or.
  destruct (truthy body) eqn:Hb, (truthy (postData c)) eqn:Hs,
    (truthy (method c)) eqn:Hm; simpl;
    rewrite send_headers_run; simpl; rewrite ?Hs, ?Hm;
    rewrite !received_one, !received_app; reflexivity.
Qed.

Lemma send_throws body c :
  truthy (url c) = false ->
  send body c = (c, Throw (JError "The request URL is empty")).
Proof.
  intros Hurl. unfold send, bind, read, throw. now rewrite Hurl.
Qed.

(** C3: with the empty string as URL, [send] throws at once; the transport
    receives no [open], [setRequestHeader] or [send], and the instance and
    its transport are as before. *)
Theorem send_empty_url (c : XHR) (body : jsval) (Hurl : url c = JStr "") :
  send body c = (c, Throw (JError "The request URL is empty"))
  /\ XMLHttpRequest.calls (xhr (fst (send body c)))
     = XMLHttpRequest.calls (xhr c).
Proof.
  assert (H : send body c = (c, Throw (JError "The request URL is empty"))).
  { apply send_throws. now rewrite Hurl. }
  split; [exact H|]. now rewrite H.
Qed.

Lemma send_empty_url_witness :
  url (new_XHR JUndefined (JStr "body") (JStr "PUT")) = JStr ""
  /\ send (JStr "other") (new_XHR JUndefined (JStr "body") (JStr "PUT"))
     = (new_XHR JUndefined (JStr "body") (JStr "PUT"),
        Throw (JError "The request URL is empty")).
Proof.
  split; [reflexivity|].
  apply (send_empty_url (new_XHR JUndefined (JStr "body") (JStr "PUT"))
                        (JStr "other") eq_refl).
Defined.

Lemma header_calls_complete h k v :
  Obj.lookup k h = Some v ->
  In (XMLHttpRequest.SetRequestHeader k v) (header_calls h).
Proof.
  intros Hk. unfold header_calls.
  replace v with (Obj.get k h) by (unfold Obj.get; now rewrite Hk).
  apply in_map with (f := fun key => XMLHttpRequest.SetRequestHeader key (Obj.get key h)).
  unfold Obj.for_in_keys. change k with (fst (k, v)). apply in_map.
  apply ObjFacts.enumerate_In. now apply ObjFacts.lookup_In.
Qed.

(** [send] writes to no property of the instance; only the transport sees
    it. *)
Lemma send_frame body c :
  method (fst (send body c)) = method c
  /\ url (fst (send body c)) = url c
  /\ postData (fst (send body c)) = postData c
  /\ userName (fst (send body c)) = userName c
  /\ password (fst (send body c)) = password c
  /\ headers (fst (send body c)) = headers c
  /\ data (fst (send body c)) = data c.
Proof.
  destruct (truthy (url c)) eqn:Hurl.
  - rewrite (send_run body c Hurl). simpl. tauto.
  - rewrite (send_throws body c Hurl). simpl. tauto.
Qed.

(** C4, as stated, fails: with a stored body and the empty string as
    per-dispatch body, the per-dispatch body is present, yet the transport
    is sent the stored body. *)
Lemma send_body_not_by_presence :
  XMLHttpRequest.calls (xhr (fst (send (JStr "") sample)))
  = [XMLHttpRequest.Open (JStr "POST") (JStr "/items") true JUndefined JUndefined;
     XMLHttpRequest.SetRequestHeader "X-Test" (JStr "OK");
     XMLHttpRequest.Send (Some (JStr "stored"))]
  /\ body_by_presence (JStr "") (postData sample) = Some (JStr "")
  /\ ~ In (XMLHttpRequest.Send (body_by_presence (JStr "") (postData sample)))
          (XMLHttpRequest.calls (xhr (fst (send (JStr "") sample)))).
Proof.
  split; [reflexivity|]. split; [reflexivity|].
  cbn. intros [H | [H | [H | []]]]; discriminate.
Qed.

(** C4, amended: with a non-empty URL, [send] opens the transport with the
    stored method if it is non-empty, else "POST" if the per-dispatch body
    is truthy or, failing that, the stored body is truthy, else "GET", and
    with the URL, async = true, the user name and the password; it then
    applies every stored header, and sends the per-dispatch body if it is
    truthy, else the stored body if it is truthy, else no body. *)
Theorem send_dispatch (c : XHR) (body : jsval)
        (Hurl : truthy (url c) = true) :
  snd (send body c) = Normal tt
  /\ XMLHttpRequest.calls (xhr (fst (send body c)))
     = (XMLHttpRequest.calls (xhr c)
        ++ XMLHttpRequest.Open (inferred_method (method c) body (postData c))
                               (url c) true (userName c) (password c)
        :: header_calls (headers c)
        ++ [XMLHttpRequest.Send (chosen_body body (postData c))])%list
  /\ (forall k v, Obj.lookup k (headers c) = Some v ->
                  In (XMLHttpRequest.SetRequestHeader k v)
                     (header_calls (headers c))).
Proof.
  rewrite (send_run body c Hurl). simpl fst. simpl snd.
  split; [reflexivity|]. split.
  - apply calls_received.
  - intros k v. apply header_calls_complete.
Qed.

Lemma send_dispatch_witness :
  truthy (url sample) = true
  /\ XMLHttpRequest.calls (xhr (fst (send (JStr "fresh") sample)))
     = [XMLHttpRequest.Open (JStr "POST") (JStr "/items") true JUndefined JUndefined;
        XMLHttpRequest.SetRequestHeader "X-Test" (JStr "OK");
        XMLHttpRequest.Send (Some (JStr "fresh"))].
Proof.
  split; [reflexivity|].
  exact (proj1 (proj2 (send_dispatch sample (JStr "fresh") eq_refl))).
Defined.

(** C6, as stated, fails: after [reset(url1, body1)] and a first dispatch,
    dispatching with the explicit body argument [""] sends [body1] again,
    not the argument. *)
Lemma send_explicit_empty_body :
  XMLHttpRequest.calls
    (xhr (fst (send (JStr "")
                    (fst (send JUndefined
                               (reset (JStr "/items") (JStr "b1") JUndefined
                                      (new_XHR JUndefined JUndefined JUndefined)))))))
  = [XMLHttpRequest.Open (JStr "POST") (JStr "/items") true JUndefined JUndefined;
     XMLHttpRequest.Send (Some (JStr "b1"));
     XMLHttpRequest.Open (JStr "POST") (JStr "/items") true JUndefined JUndefined;
     XMLHttpRequest.Send (Some (JStr "b1"))]
  /\ ~ In (XMLHttpRequest.Send (Some (JStr "")))
          (XMLHttpRequest.calls
             (xhr (fst (send (JStr "")
                             (fst (send JUndefined
                                        (reset (JStr "/items") (JStr "b1") JUndefined
                                               (new_XHR JUndefined JUndefined JUndefined)))))))).
Proof.
  split; [reflexivity|].
  cbn. intros [H | [H | [H | [H | []]]]]; discriminate.
Qed.

(** C6, amended: after [reset(url1, body1)] with a non-empty URL and a
    first dispatch, dispatching with a truthy body argument [body2] sends
    [body2], to the stored URL and with the stored method or the inferred
    "POST", and leaves the body stored by [reset] unchanged; no dispatch
    changes the stored method, URL, body, credentials, headers or user
    data. *)
Theorem send_keeps_descriptor (c : XHR) (url1 body1 m body2 : jsval)
        (Hurl : truthy url1 = true) (Hbody : truthy body2 = true) :
  XMLHttpRequest.calls
    (xhr (fst (send body2 (fst (send JUndefined (reset url1 body1 m c))))))
  = (XMLHttpRequest.calls (xhr (fst (send JUndefined (reset url1 body1 m c))))
     ++ XMLHttpRequest.Open (if truthy m then m else JStr "POST")
                            url1 true (userName c) (password c)
     :: header_calls (headers c)
     ++ [XMLHttpRequest.Send (Some body2)])%list
  /\ postData (fst (send body2 (fst (send JUndefined (reset url1 body1 m c)))))
     = postData (reset url1 body1 m c)
  /\ (forall d b,
         method (fst (send b d)) = method d
         /\ url (fst (send b d)) = url d
         /\ postData (fst (send b d)) = postData d
         /\ userName (fst (send b d)) = userName d
         /\ password (fst (send b d)) = password d
         /\ headers (fst (send b d)) = headers d
         /\ data (fst (send b d)) = data d).
Proof.
  split; [|split].
  - set (c1 := fst (send JUndefined (reset url1 body1 m c))).
    destruct (send_frame JUndefined (reset url1 body1 m c))
      as (Hm & Hu & Hp & Hn & Hw & Hh & _).
    fold c1 in Hm, Hu, Hp, Hn, Hw, Hh. simpl in Hm, Hu, Hp, Hn, Hw, Hh.
    assert (Hu1 : url c1 = url1) by (rewrite Hu; now apply js_or_truthy).
    assert (Hurl1 : truthy (url c1) = true) by now rewrite Hu1.
    rewrite (send_run body2 c1 Hurl1). simpl fst.
    rewrite calls_received, Hu1, Hm, Hp, Hn, Hw, Hh.
    unfold inferred_method, chosen_body. rewrite Hbody, truthy_js_or. simpl.
    rewrite orb_false_r. unfold js_or. now destruct (truthy m).
  - destruct (send_frame body2 (fst (send JUndefined (reset url1 body1 m c))))
      as (_ & _ & Hp & _).
    destruct (send_frame JUndefined (reset url1 body1 m c)) as (_ & _ & Hp' & _).
    now rewrite Hp, Hp'.
  - intros d b. apply send_frame.
Qed.

Lemma send_keeps_descriptor_witness :
  truthy (JStr "/items") = true /\ truthy (JStr "b2") = true
  /\ postData (fst (send (JStr "b2")
                         (fst (send JUndefined
                                    (reset (JStr "/items") (JStr "b1") JUndefined sample)))))
     = JStr "b1".
Proof.
  split; [reflexivity|]. split; [reflexivity|].
  exact (proj1 (proj2 (send_keeps_descriptor
                         sample (JStr "/items") (JStr "b1") JUndefined (JStr "b2")
                         eq_refl eq_refl))).
Defined.

(** C10: with a non-empty URL, a falsy per-dispatch body (the empty string,
    0, null, false) is treated exactly as an absent one: the stored body is
    sent when it is truthy, and when both are falsy the request is sent
    without body and the method defaults to "GET". *)
Theorem send_body_by_truthiness (c : XHR) (body : jsval)
        (Hurl : truthy (url c) = true) (Hfalsy : truthy body = false) :
  send body c = send JUndefined c
  /\ (truthy (postData c) = true ->
      XMLHttpRequest.calls (xhr (fst (send body c)))
      = (XMLHttpRequest.calls (xhr c)
         ++ XMLHttpRequest.Open (js_or (method c) (JStr "POST"))
                                (url c) true (userName c) (password c)
         :: header_calls (headers c)
         ++ [XMLHttpRequest.Send (Some (postData c))])%list)
  /\ (truthy (postData c) = false ->
      XMLHttpRequest.calls (xhr (fst (send body c)))
      = (XMLHttpRequest.calls (xhr c)
         ++ XMLHttpRequest.Open (js_or (method c) (JStr "GET"))
                                (url c) true (userName c) (password c)
         :: header_calls (headers c)
         ++ [XMLHttpRequest.Send None])%list)
  /\ truthy (JStr "") = false /\ truthy (JNum 0) = false
  /\ truthy JNull = false /\ truthy (JBool false) = false.
Proof.
  rewrite (send_run body c Hurl), (send_run JUndefined c Hurl).
  unfold inferred_method, chosen_body, js_or. rewrite Hfalsy.
  cbn -[received header_calls].
  split; [reflexivity|].
  split; [|split; [|repeat split]].
  - intros Hs. rewrite calls_received, Hs. now destruct (truthy (method c)).
  - intros Hs. rewrite calls_received, Hs. now destruct (truthy (method c)).
Qed.

Lemma send_body_by_truthiness_witness :
  truthy (url sample) = true /\ truthy (JNum 0) = false
  /\ send (JNum 0) sample = send JUndefined sample
  /\ XMLHttpRequest.calls (xhr (fst (send (JNum 0) sample)))
     = [XMLHttpRequest.Open (JStr "POST") (JStr "/items") true JUndefined JUndefined;
        XMLHttpRequest.SetRequestHeader "X-Test" (JStr "OK");
        XMLHttpRequest.Send (Some (JStr "stored"))].
Proof.
  split; [reflexivity|]. split; [reflexivity|]. split.
  - exact (proj1 (send_body_by_truthiness sample (JNum 0) eq_refl eq_refl)).
  - exact (proj1 (proj2 (send_body_by_truthiness sample (JNum 0) eq_refl eq_refl))
                 eq_refl).
Defined.

(** ** Observer slot *)

Lemma call_if_function_In h f : In (HandlerCall h) (call_if_function f) -> h = f.
Proof.
  unfold call_if_function. destruct (js_typeof f =? "function")%string; simpl.
  - intros [[= ->] | []]. reflexivity.
  - tauto.
Qed.

Lemma promise_listener body c :
  XMLHttpRequest.onreadystatechange (xhr (fst (promise body c))) = PromiseListener.
Proof.
  unfold promise.
  set (c1 := with_xhr (XMLHttpRequest.set_onreadystatechange PromiseListener) c).
  destruct (truthy (url c1)) eqn:Hurl.
  - rewrite (send_run body c1 Hurl). simpl fst. now rewrite transport_received.
  - now rewrite (send_throws body c1 Hurl).
Qed.

(** C5: each of [onChange], [onReady], [onSuccess] and [promise] overwrites
    the one observer slot; after [onReady(h)] and then [onSuccess(hOk, hErr)]
    only the routing of [onSuccess] is installed, and at the terminal state
    the handler given to [onReady] is not called. *)
Theorem observer_slot_overwritten (c : XHR) (h hOk hErr body : jsval) :
  XMLHttpRequest.onreadystatechange (xhr (onChange h c)) = ChangeListener h
  /\ XMLHttpRequest.onreadystatechange (xhr (onReady h c)) = ReadyListener h
  /\ XMLHttpRequest.onreadystatechange (xhr (onSuccess hOk hErr c))
     = SuccessListener hOk hErr
  /\ XMLHttpRequest.onreadystatechange (xhr (fst (promise body c)))
     = PromiseListener
  /\ XMLHttpRequest.onreadystatechange (xhr (onSuccess hOk hErr (onReady h c)))
     = SuccessListener hOk hErr
  /\ (forall st resp,
         readystatechange
           (with_xhr (XMLHttpRequest.progress XMLHttpRequest.DONE st resp)
                     (onSuccess hOk hErr (onReady h c)))
         = (if isSuccessResponse
                 (with_xhr (XMLHttpRequest.progress XMLHttpRequest.DONE st resp) c)
            then call_if_function hOk else call_if_function hErr)
         /\ (h <> hOk -> h <> hErr ->
             ~ In (HandlerCall h)
                  (readystatechange
                     (with_xhr (XMLHttpRequest.progress XMLHttpRequest.DONE st resp)
                               (onSuccess hOk hErr (onReady h c)))))).
Proof.
  repeat (split; [reflexivity|]).
  split; [apply promise_listener|]. split; [reflexivity|].
  intros st resp.
  assert (Hfire :
    readystatechange
      (with_xhr (XMLHttpRequest.progress XMLHttpRequest.DONE st resp)
                (onSuccess hOk hErr (onReady h c)))
    = (if isSuccessResponse
            (with_xhr (XMLHttpRequest.progress XMLHttpRequest.DONE st resp) c)
       then call_if_function hOk else call_if_function hErr)) by reflexivity.
  split; [exact Hfire|].
  intros HnOk HnErr Hin. rewrite Hfire in Hin.
  destruct (isSuccessResponse _); apply call_if_function_In in Hin; contradiction.
Qed.

Lemma observer_slot_overwritten_witness :
  JFunction "h" <> JFunction "ok" /\ JFunction "h" <> JFunction "err"
  /\ ~ In (HandlerCall (JFunction "h"))
          (readystatechange
             (with_xhr (XMLHttpRequest.progress XMLHttpRequest.DONE 200 (JStr "done"))
                       (onSuccess (JFunction "ok") (JFunction "err")
                                  (onReady (JFunction "h") sample)))).
Proof.
  split; [discriminate|]. split; [discriminate|].
  apply (observer_slot_overwritten sample (JFunction "h") (JFunction "ok")
                                   (JFunction "err") JUndefined);
    discriminate.
Defined.

(** ** Headers *)

Lemma with_headers_id c : with_headers (fun h => h) c = c.
Proof. now destruct c. Qed.

Lemma with_headers_same c : with_headers (fun _ => headers c) c = c.
Proof. now destruct c. Qed.

Lemma callee_builtin o :
  Obj.lookup "hasOwnProperty" o = None -> hasOwnProperty_callee o = Builtin.
Proof. unfold hasOwnProperty_callee. now intros ->. Qed.

Lemma callee_not_callable o x :
  Obj.lookup "hasOwnProperty" o = Some x -> js_typeof x <> "function" ->
  hasOwnProperty_callee o = NotCallable x.
Proof.
  unfold hasOwnProperty_callee. intros -> Hx.
  destruct x; try reflexivity. now contradiction Hx.
Qed.

(** Assigning a string: [__proto__] takes no string. *)
Lemma obj_assign_string k v o :
  nonempty_string v = true ->
  obj_assign k v o
  = Stored (if (Obj.hasOwnProperty k o || negb (k =? "__proto__")%string)%bool
            then Obj.set k v o else o).
Proof.
  intros Hv. apply nonempty_string_inv in Hv. destruct Hv as (s & -> & _).
  unfold obj_assign.
  destruct (Obj.hasOwnProperty k o); [reflexivity|].
  now destruct (k =? "__proto__")%string.
Qed.

Lemma setHeader_store name v c :
  name <> "" -> nonempty_string v = true ->
  setHeader_call (JStr name) v c
  = (with_headers
       (fun _ => if (Obj.hasOwnProperty name (headers c)
                     || negb (name =? "__proto__")%string)%bool
                 then Obj.set name v (headers c) else headers c) c,
     ReturnsThis).
Proof.
  intros Hname Hv. unfold setHeader_call. rewrite !truthy_length.
  assert (Hn : nonempty_string (JStr name) = true) by now apply truthy_string.
  rewrite Hn, Hv. simpl str_value. now rewrite (obj_assign_string name v _ Hv).
Qed.

Lemma setHeader_remove name v c :
  name <> "" -> nonempty_string v = false ->
  Obj.lookup "hasOwnProperty" (headers c) = None ->
  setHeader_call (JStr name) v c = (with_headers (Obj.delete name) c, ReturnsThis).
Proof.
  intros Hname Hv Hb. unfold setHeader_call. rewrite !truthy_length.
  assert (Hn : nonempty_string (JStr name) = true) by now apply truthy_string.
  rewrite Hn, Hv, (callee_builtin _ Hb). simpl str_value.
  unfold Obj.hasOwnProperty.
  destruct (Obj.lookup name (headers c)) eqn:E; [reflexivity|].
  unfold with_headers. rewrite (ObjFacts.delete_absent _ _ E). now destruct c.
Qed.

(** Away from [__proto__] and from a shadowed [hasOwnProperty], [setHeader]
    is an update of a dictionary. *)
Lemma setHeader_eq name v c :
  name <> "" -> name <> "__proto__" ->
  (nonempty_string v = false -> Obj.lookup "hasOwnProperty" (headers c) = None) ->
  setHeader (JStr name) v c
  = with_headers (fun h => if nonempty_string v then Obj.set name v h
                           else Obj.delete name h) c.
Proof.
  intros Hname Hproto Hb. unfold setHeader.
  destruct (nonempty_string v) eqn:Hv.
  - rewrite (setHeader_store name v c Hname Hv). simpl.
    apply String.eqb_neq in Hproto. rewrite Hproto, orb_true_r. reflexivity.
  - now rewrite (setHeader_remove name v c Hname Hv (Hb eq_refl)).
Qed.

(** C7: the code misses the claim in two places, both from using the plain
    object [this.headers] as a dictionary.  [setHeader("__proto__", v)] with
    a non-empty string [v] returns and stores nothing; and once a header
    named "hasOwnProperty" is stored, a [setHeader] that should remove a
    header throws a TypeError and removes nothing. *)
Theorem setHeader_defect (c : XHR) (name : string) (v w x : jsval)
        (Hname : name <> "")
        (Hv : nonempty_string v = true) (Hw : nonempty_string w = false) :
  (Obj.lookup "__proto__" (headers c) = None ->
   setHeader_call (JStr "__proto__") v c = (c, ReturnsThis)
   /\ Obj.lookup "__proto__" (headers (setHeader (JStr "__proto__") v c)) = None)
  /\ (Obj.lookup "hasOwnProperty" (headers c) = Some x ->
      js_typeof x <> "function" ->
      setHeader_call (JStr name) w c = (c, ThrowsTypeError))
  /\ (Obj.lookup "hasOwnProperty" (headers c) = None ->
      setHeader_call (JStr name) w (setHeader (JStr "hasOwnProperty") v c)
      = (setHeader (JStr "hasOwnProperty") v c, ThrowsTypeError)).
Proof.
  assert (Hthrow : forall d y,
             Obj.lookup "hasOwnProperty" (headers d) = Some y ->
             js_typeof y <> "function" ->
             setHeader_call (JStr name) w d = (d, ThrowsTypeError)).
  { intros d y Hy Hty. unfold setHeader_call. rewrite !truthy_length.
    assert (Hn : nonempty_string (JStr name) = true) by now apply truthy_string.
    now rewrite Hn, Hw, (callee_not_callable _ y Hy Hty). }
  split; [|split].
  - intros Habs.
    assert (Hcall : setHeader_call (JStr "__proto__") v c = (c, ReturnsThis)).
    { rewrite (setHeader_store "__proto__" v c) by (discriminate || assumption).
      unfold Obj.hasOwnProperty. rewrite Habs. simpl.
      now rewrite with_headers_same. }
    split; [exact Hcall|]. unfold setHeader. now rewrite Hcall.
  - apply Hthrow.
  - intros Hb. apply (Hthrow _ v).
    + unfold setHeader.
      rewrite (setHeader_store "hasOwnProperty" v c) by (discriminate || assumption).
      simpl. unfold Obj.hasOwnProperty. rewrite Hb. simpl.
      apply ObjFacts.lookup_set_same.
    + apply nonempty_string_inv in Hv. destruct Hv as (t & -> & _). discriminate.
Qed.

Lemma setHeader_defect_witness :
  "X-Test"%string <> ""%string
  /\ nonempty_string (JStr "x") = true /\ nonempty_string (JStr "") = false
  /\ setHeader_call (JStr "__proto__") (JStr "x") sample = (sample, ReturnsThis)
  /\ setHeader_call (JStr "X-Test") (JStr "")
                    (setHeader (JStr "hasOwnProperty") (JStr "x") sample)
     = (setHeader (JStr "hasOwnProperty") (JStr "x") sample, ThrowsTypeError)
  /\ Obj.lookup "X-Test"
       (headers (setHeader (JStr "X-Test") (JStr "")
                           (setHeader (JStr "hasOwnProperty") (JStr "x") sample)))
     = Some (JStr "OK").
Proof.
  assert (Hname : "X-Test"%string <> ""%string) by discriminate.
  split; [exact Hname|]. split; [reflexivity|]. split; [reflexivity|].
  split; [|split].
  - exact (proj1 (proj1 (setHeader_defect sample "X-Test" (JStr "x") (JStr "") JNull
                                          Hname eq_refl eq_refl) eq_refl)).
  - exact (proj2 (proj2 (setHeader_defect sample "X-Test" (JStr "x") (JStr "") JNull
                                          Hname eq_refl eq_refl)) eq_refl).
  - reflexivity.
Defined.

(** X29: for a non-empty name other than "__proto__" and "hasOwnProperty",
    on an instance that holds no header named "hasOwnProperty",
    [setHeader(name, v)] stores [v] under [name] exactly when [v] is a
    non-empty string and otherwise removes the header of that name;
    [setHeader(name, "")] and [setHeader(name, undefined)] give the same
    headers; setting the same header again changes nothing, and of two
    writes under one name the last one wins. *)
Theorem setHeader_stores_and_removes (c : XHR) (name : string) (v : jsval)
        (Hname : name <> "") (Hproto : name <> "__proto__")
        (Hown : name <> "hasOwnProperty")
        (Hplain : Obj.lookup "hasOwnProperty" (headers c) = None) :
  (nonempty_string v = true ->
   Obj.lookup name (headers (setHeader (JStr name) v c)) = Some v)
  /\ (nonempty_string v = false ->
      Obj.lookup name (headers (setHeader (JStr name) v c)) = None)
  /\ (forall k, k <> name ->
                Obj.lookup k (headers (setHeader (JStr name) v c))
                = Obj.lookup k (headers c))
  /\ setHeader (JStr name) (JStr "") c = setHeader (JStr name) JUndefined c
  /\ setHeader (JStr name) v (setHeader (JStr name) v c)
     = setHeader (JStr name) v c
  /\ (forall v1 k,
         Obj.lookup k (headers (setHeader (JStr name) v
                                          (setHeader (JStr name) v1 c)))
         = Obj.lookup k (headers (setHeader (JStr name) v c)))
  /\ snd (setHeader_call (JStr name) v c) = ReturnsThis.
Proof.
  assert (Heq : forall u d, Obj.lookup "hasOwnProperty" (headers d) = None ->
            setHeader (JStr name) u d
            = with_headers (fun h => if nonempty_string u then Obj.set name u h
                                     else Obj.delete name h) d).
  { intros u d Hd. now apply setHeader_eq. }
  assert (Hkeep : forall u, Obj.lookup "hasOwnProperty"
                              (headers (setHeader (JStr name) u c)) = None).
  { intros u. rewrite (Heq u c Hplain). simpl. destruct (nonempty_string u).
    - now rewrite ObjFacts.lookup_set_other.
    - now rewrite ObjFacts.lookup_delete_other. }
  split; [|split; [|split; [|split; [|split; [|split]]]]].
  - intros Hv. rewrite Heq by assumption. simpl. rewrite Hv.
    apply ObjFacts.lookup_set_same.
  - intros Hv. rewrite Heq by assumption. simpl. rewrite Hv.
    apply ObjFacts.lookup_delete_same.
  - intros k Hk. rewrite Heq by assumption. simpl.
    destruct (nonempty_string v).
    + now apply ObjFacts.lookup_set_other.
    + now apply ObjFacts.lookup_delete_other.
  - now rewrite !Heq by assumption.
  - rewrite (Heq v _ (Hkeep v)), (Heq v c Hplain). unfold with_headers. simpl.
    destruct (nonempty_string v).
    + now rewrite ObjFacts.set_set.
    + now rewrite (ObjFacts.delete_absent name (Obj.delete name (headers c)))
        by apply ObjFacts.lookup_delete_same.
  - intros v1 k. rewrite (Heq v _ (Hkeep v1)), (Heq v1 c Hplain), (Heq v c Hplain).
    simpl.
    destruct (String.string_dec k name) as [-> | Hk].
    + destruct (nonempty_string v).
      * now rewrite !ObjFacts.lookup_set_same.
      * now rewrite !ObjFacts.lookup_delete_same.
    + destruct (nonempty_string v), (nonempty_string v1);
        repeat first [ rewrite ObjFacts.lookup_set_other by assumption
                     | rewrite ObjFacts.lookup_delete_other by assumption ];
        reflexivity.
  - destruct (nonempty_string v) eqn:Hv.
    + now rewrite (setHeader_store name v c Hname Hv).
    + now rewrite (setHeader_remove name v c Hname Hv Hplain).
Qed.

Lemma setHeader_stores_and_removes_witness :
  "Accept"%string <> ""%string /\ "Accept"%string <> "__proto__"%string
  /\ "Accept"%string <> "hasOwnProperty"%string
  /\ Obj.lookup "hasOwnProperty" (headers sample) = None
  /\ Obj.lookup "Accept" (headers (setHeader (JStr "Accept") (JStr "text/plain") sample))
     = Some (JStr "text/plain")
  /\ Obj.lookup "Accept" (headers (setHeader (JStr "Accept") (JNum 7) sample)) = None.
Proof.
  assert (H1 : "Accept"%string <> ""%string) by discriminate.
  assert (H2 : "Accept"%string <> "__proto__"%string) by discriminate.
  assert (H3 : "Accept"%string <> "hasOwnProperty"%string) by discriminate.
  split; [exact H1|]. split; [exact H2|]. split; [exact H3|].
  split; [reflexivity|]. split.
  - exact (proj1 (setHeader_stores_and_removes
                    sample "Accept" (JStr "text/plain") H1 H2 H3 eq_refl) eq_refl).
  - exact (proj1 (proj2 (setHeader_stores_and_removes
                           sample "Accept" (JNum 7) H1 H2 H3 eq_refl)) eq_refl).
Defined.

(** ** Cookies *)

Lemma push_cookie_entry o acc e :
  Obj.lookup (fst e) o = Some (snd e) ->
  push_cookie o acc (fst e)
  = (acc ++ (if nonempty_string (snd e) then [cookie_entry e] else []))%list.
Proof.
  intros He. unfold push_cookie, Obj.hasOwnProperty, Obj.get. rewrite He.
  rewrite <- andb_assoc, truthy_length. simpl andb.
  destruct (nonempty_string (snd e)); [reflexivity|].
  now rewrite app_nil_r.
Qed.

Lemma fold_push_cookie o l :
  (forall e, In e l -> Obj.lookup (fst e) o = Some (snd e)) ->
  forall acc,
    fold_left (push_cookie o) (map fst l) acc
    = (acc ++ map cookie_entry (filter (fun e => nonempty_string (snd e)) l))%list.
Proof.
  induction l as [|e l IH]; intros Hl acc; simpl.
  - now rewrite app_nil_r.
  - rewrite push_cookie_entry by (apply Hl; now left).
    rewrite IH by (intros e' He'; apply Hl; now right).
    rewrite <- app_assoc.
    now destruct (nonempty_string (snd e)).
Qed.

Lemma encode_loop_builtin o keys acc :
  Obj.lookup "hasOwnProperty" o = None ->
  encode_loop o keys acc = inl (fold_left (push_cookie o) keys acc).
Proof.
  intros Hb. revert acc. induction keys as [|key keys IH]; intros acc; simpl.
  - reflexivity.
  - now rewrite (callee_builtin o Hb), IH.
Qed.

(** The loop of [setCookies] collects the encoded cookies. *)
Lemma setCookies_loop o :
  Obj.wf o ->
  fold_left (push_cookie o) (Obj.for_in_keys o) [] = encoded_cookies o.
Proof.
  intros Hwf. unfold Obj.for_in_keys, encoded_cookies.
  rewrite fold_push_cookie; [reflexivity|].
  intros [k v] Hin. apply ObjFacts.In_lookup; [exact Hwf|].
  now apply ObjFacts.enumerate_In.
Qed.

Lemma setCookies_call_set o c :
  Obj.wf o -> Obj.lookup "hasOwnProperty" o = None ->
  encoded_cookies o <> [] ->
  setCookies_call (JObject o) c
  = (with_headers
       (Obj.set "Cookie" (JStr (String.concat "; " (encoded_cookies o)))) c,
     ReturnsThis).
Proof.
  intros Hwf Hb Hne. unfold setCookies_call. simpl js_typeof. simpl props_of.
  rewrite String.eqb_refl, (encode_loop_builtin o _ [] Hb), (setCookies_loop o Hwf).
  destruct (encoded_cookies o) as [|e l]; [contradiction | reflexivity].
Qed.

(** With nothing to encode, [setCookies] removes the header. *)
Lemma setCookies_call_clear v c :
  (js_typeof v = "object" ->
   encode_loop (props_of v) (Obj.for_in_keys (props_of v)) [] = inl []) ->
  Obj.lookup "hasOwnProperty" (headers c) = None ->
  setCookies_call v c = (with_headers (Obj.delete "Cookie") c, ReturnsThis).
Proof.
  intros Hloop Hb. unfold setCookies_call.
  assert (He : (if (js_typeof v =? "object")%string
                then encode_loop (props_of v) (Obj.for_in_keys (props_of v)) []
                else inl []) = inl (@nil string)).
  { destruct (js_typeof v =? "object")%string eqn:E; [|reflexivity].
    apply Hloop. now apply String.eqb_eq. }
  rewrite He. simpl. rewrite (callee_builtin _ Hb). unfold Obj.hasOwnProperty.
  destruct (Obj.lookup "Cookie" (headers c)) eqn:E; [reflexivity|].
  unfold with_headers. rewrite (ObjFacts.delete_absent _ _ E). now destruct c.
Qed.

Lemma setCookies_eq o c :
  Obj.wf o -> Obj.lookup "hasOwnProperty" o = None ->
  Obj.lookup "hasOwnProperty" (headers c) = None ->
  setCookies (JObject o) c
  = with_headers
      (fun h => match encoded_cookies o with
                | [] => Obj.delete "Cookie" h
                | _ :: _ => Obj.set "Cookie" (JStr (String.concat "; " (encoded_cookies o))) h
                end) c.
Proof.
  intros Hwf Hb Hc. unfold setCookies.
  destruct (encoded_cookies o) as [|e l] eqn:E.
  - rewrite setCookies_call_clear; [reflexivity | | exact Hc].
    intros _. simpl props_of.
    now rewrite (encode_loop_builtin o _ [] Hb), (setCookies_loop o Hwf), E.
  - rewrite setCookies_call_set; try assumption.
    + simpl. now rewrite E.
    + rewrite E. discriminate.
Qed.

Lemma setCookies_none v c :
  props_of v = [] ->
  Obj.lookup "hasOwnProperty" (headers c) = None ->
  Obj.lookup "Cookie" (headers (setCookies v c)) = None.
Proof.
  intros Hv Hc. unfold setCookies.
  rewrite setCookies_call_clear; [| now rewrite Hv | exact Hc].
  simpl. apply ObjFacts.lookup_delete_same.
Qed.

Lemma cookie_entry_nonempty e : cookie_entry e <> "".
Proof. unfold cookie_entry. destruct (fst e); simpl; discriminate. Qed.

Lemma concat_nonempty sep x l : x <> "" -> String.concat sep (x :: l) <> "".
Proof.
  intros Hx. destruct l as [|y l]; simpl; [exact Hx|].
  destruct x; [contradiction | simpl; discriminate].
Qed.

(** [setCookies] is [setHeader] on "Cookie" with the joined encoding: an
    empty encoding removes the header as an empty value does. *)
Lemma setCookies_as_setHeader o c :
  Obj.wf o -> Obj.lookup "hasOwnProperty" o = None ->
  Obj.lookup "hasOwnProperty" (headers c) = None ->
  setCookies (JObject o) c
  = setHeader (JStr "Cookie") (JStr (String.concat "; " (encoded_cookies o))) c.
Proof.
  intros Hwf Hb Hc.
  rewrite (setCookies_eq o c Hwf Hb Hc), setHeader_eq;
    [| discriminate | discriminate | now intros _].
  assert (Hne : forall x, In x (encoded_cookies o) -> x <> "").
  { intros x Hx. apply in_map_iff in Hx. destruct Hx as (e & <- & _).
    apply cookie_entry_nonempty. }
  destruct (encoded_cookies o) as [|x l]; [reflexivity|].
  assert (Hj : nonempty_string (JStr (String.concat "; " (x :: l))) = true).
  { apply truthy_string, concat_nonempty, Hne. now left. }
  now rewrite Hj.
Qed.

Lemma enumerate_nonempty o k x :
  Obj.lookup k o = Some x -> Obj.for_in_keys o <> [].
Proof.
  intros Hk Hnil. apply ObjFacts.lookup_In in Hk.
  apply (proj2 (ObjFacts.enumerate_In _ _)) in Hk.
  unfold Obj.for_in_keys in Hnil. destruct (Obj.enumerate o); [contradiction|].
  discriminate.
Qed.

(** C8: the code misses the claim where [hasOwnProperty], called as a
    method of the cookie map or of [this.headers], is shadowed by an own
    property.  A map with an entry named "hasOwnProperty" whose value is
    not a function makes [setCookies] throw a TypeError and write nothing;
    and on an instance that holds a header named "hasOwnProperty",
    [setCookies] with nothing to encode throws and leaves the "Cookie"
    header stored. *)
Theorem setCookies_defect (c : XHR) (o : obj) (x y v : jsval)
        (Hx : js_typeof x <> "function") (Hy : js_typeof y <> "function") :
  (Obj.lookup "hasOwnProperty" o = Some x ->
   setCookies_call (JObject o) c = (c, ThrowsTypeError))
  /\ (Obj.lookup "hasOwnProperty" (headers c) = Some y ->
      props_of v = [] ->
      setCookies_call v c = (c, ThrowsTypeError)).
Proof.
  split.
  - intros Hown. unfold setCookies_call. simpl js_typeof. simpl props_of.
    rewrite String.eqb_refl.
    pose proof (enumerate_nonempty o _ _ Hown) as Hne.
    destruct (Obj.for_in_keys o) as [|key keys]; [contradiction|].
    simpl. now rewrite (callee_not_callable o x Hown Hx).
  - intros Hown Hv. unfold setCookies_call. rewrite Hv.
    assert (He : (if (js_typeof v =? "object")%string
                  then encode_loop [] (Obj.for_in_keys []) []
                  else inl []) = inl (@nil string))
      by now destruct (js_typeof v =? "object")%string.
    rewrite He. simpl. now rewrite (callee_not_callable _ y Hown Hy).
Qed.

Lemma setCookies_defect_witness :
  js_typeof (JStr "x") <> "function"
  /\ setCookies_call (JObject [("a", JStr "1"); ("hasOwnProperty", JStr "x")]) sample
     = (sample, ThrowsTypeError)
  /\ setCookies_call JUndefined
       (setHeader (JStr "hasOwnProperty") (JStr "x")
                  (setHeader (JStr "Cookie") (JStr "a=1") sample))
     = (setHeader (JStr "hasOwnProperty") (JStr "x")
                  (setHeader (JStr "Cookie") (JStr "a=1") sample),
        ThrowsTypeError).
Proof.
  assert (Hx : js_typeof (JStr "x") <> "function") by discriminate.
  split; [exact Hx|]. split.
  - exact (proj1 (setCookies_defect
                    sample [("a", JStr "1"); ("hasOwnProperty", JStr "x")]
                    (JStr "x") (JStr "x") JUndefined Hx Hx) eq_refl).
  - exact (proj2 (setCookies_defect
                    (setHeader (JStr "hasOwnProperty") (JStr "x")
                               (setHeader (JStr "Cookie") (JStr "a=1") sample))
                    [] (JStr "x") (JStr "x") JUndefined Hx Hx) eq_refl eq_refl).
Defined.

(** X30: for a map with unique property names and no entry named
    "hasOwnProperty", on an instance that holds no header named
    "hasOwnProperty", [setCookies(map)] returns and replaces the "Cookie"
    header by the encodings [name=value] of the entries of [map] whose
    values are non-empty strings, joined with "; " in the enumeration order
    of [map]; with no such entry the header is removed, as [setHeader] does
    for an empty value.  [{a:"1", b:"2"}] gives "a=1; b=2"; an absent or
    empty map removes the header. *)
Theorem setCookies_sets_cookie_header (c : XHR) (o : obj) (Hwf : Obj.wf o)
        (Hmap : Obj.lookup "hasOwnProperty" o = None)
        (Hplain : Obj.lookup "hasOwnProperty" (headers c) = None) :
  (encoded_cookies o <> [] ->
   Obj.lookup "Cookie" (headers (setCookies (JObject o) c))
   = Some (JStr (String.concat "; " (encoded_cookies o))))
  /\ (encoded_cookies o = [] ->
      Obj.lookup "Cookie" (headers (setCookies (JObject o) c)) = None)
  /\ (forall k, k <> "Cookie" ->
                Obj.lookup k (headers (setCookies (JObject o) c))
                = Obj.lookup k (headers c))
  /\ Obj.lookup "Cookie"
       (headers (setCookies (JObject [("a", JStr "1"); ("b", JStr "2")]) c))
     = Some (JStr "a=1; b=2")
  /\ Obj.lookup "Cookie" (headers (setCookies JUndefined c)) = None
  /\ Obj.lookup "Cookie" (headers (setCookies (JObject []) c)) = None
  /\ setCookies (JObject o) c
     = setHeader (JStr "Cookie")
                 (JStr (String.concat "; " (encoded_cookies o))) c
  /\ snd (setCookies_call (JObject o) c) = ReturnsThis.
Proof.
  split; [|split; [|split; [|split; [|split; [|split; [|split]]]]]].
  - intros Hne. rewrite setCookies_eq by assumption. simpl.
    destruct (encoded_cookies o); [contradiction|].
    apply ObjFacts.lookup_set_same.
  - intros He. rewrite setCookies_eq by assumption. simpl. rewrite He.
    apply ObjFacts.lookup_delete_same.
  - intros k Hk. rewrite setCookies_eq by assumption. simpl.
    destruct (encoded_cookies o).
    + now apply ObjFacts.lookup_delete_other.
    + now apply ObjFacts.lookup_set_other.
  - unfold setCookies, setCookies_call. simpl. apply ObjFacts.lookup_set_same.
  - now apply setCookies_none.
  - now apply setCookies_none.
  - now apply setCookies_as_setHeader.
  - destruct (encoded_cookies o) as [|e l] eqn:E.
    + rewrite setCookies_call_clear; [reflexivity | | exact Hplain].
      intros _. simpl props_of.
      now rewrite (encode_loop_builtin o _ [] Hmap), (setCookies_loop o Hwf), E.
    + rewrite setCookies_call_set; try assumption; [reflexivity|].
      rewrite E. discriminate.
Qed.

Lemma setCookies_sets_cookie_header_witness :
  Obj.wf [("b", JStr "x y"); ("skip", JNum 1); ("7", JStr "z")]
  /\ Obj.lookup "hasOwnProperty" [("b", JStr "x y"); ("skip", JNum 1); ("7", JStr "z")]
     = None
  /\ Obj.lookup "hasOwnProperty"
       (headers (setHeader (JStr "Cookie") (JStr "old=1") sample)) = None
  /\ Obj.lookup "Cookie"
       (headers (setCookies
                   (JObject [("b", JStr "x y"); ("skip", JNum 1); ("7", JStr "z")])
                   (setHeader (JStr "Cookie") (JStr "old=1") sample)))
     = Some (JStr "7=z; b=x%20y").
Proof.
  assert (Hwf : Obj.wf [("b", JStr "x y"); ("skip", JNum 1); ("7", JStr "z")]).
  { unfold Obj.wf. simpl.
    repeat (constructor; [simpl; intuition discriminate|]). constructor. }
  split; [exact Hwf|]. split; [reflexivity|]. split; [reflexivity|].
  refine (proj1 (setCookies_sets_cookie_header
                   (setHeader (JStr "Cookie") (JStr "old=1") sample) _
                   Hwf eq_refl eq_refl) _).
  discriminate.
Defined.

(** ** Response type *)

(** C9, as stated, fails: called with the argument 42, [responseType]
    returns the current response type, not the instance, and stores
    nothing. *)
Lemma responseType_number_argument :
  responseType (JNum 42) (settled 200 "json" JNull sample)
  = (settled 200 "json" JNull sample, Value (JStr "json"))
  /\ snd (responseType (JNum 42) (settled 200 "json" JNull sample)) <> This.
Proof. split; [reflexivity | discriminate]. Qed.

(** C9, amended: [responseType] returns the current response type when
    called with no argument, or with an argument that is not a string; called
    with a string it stores the string as the response type and returns the
    instance itself. *)
Theorem responseType_get_set (c : XHR) (v : jsval) :
  responseType JUndefined c
  = (c, Value (JStr (XMLHttpRequest.responseType (xhr c))))
  /\ (js_typeof v <> "string" ->
      responseType v c = (c, Value (JStr (XMLHttpRequest.responseType (xhr c)))))
  /\ (forall s,
         responseType (JStr s) c
         = (with_xhr (XMLHttpRequest.set_responseType s) c, This)
         /\ XMLHttpRequest.responseType (xhr (fst (responseType (JStr s) c))) = s
         /\ fst (responseType JUndefined (fst (responseType (JStr s) c)))
            = fst (responseType (JStr s) c)
         /\ snd (responseType JUndefined (fst (responseType (JStr s) c)))
            = Value (JStr s)).
Proof.
  split; [reflexivity|]. split.
  - intros Hty. unfold responseType.
    destruct (js_typeof v =? "string")%string eqn:E; [|reflexivity].
    apply String.eqb_eq in E. contradiction.
  - intros s. repeat split.
Qed.

Lemma responseType_get_set_witness :
  js_typeof JNull <> "string"
  /\ responseType JNull sample = (sample, Value (JStr ""))
  /\ snd (responseType (JStr "json") sample) = This.
Proof.
  assert (Hty : js_typeof JNull <> "string") by discriminate.
  split; [exact Hty|]. split.
  - exact (proj1 (proj2 (responseType_get_set sample JNull)) Hty).
  - exact (f_equal snd (proj1 (proj2 (proj2 (responseType_get_set sample JNull))
                                     "json"))).
Defined.

(** * Further properties *)

(** ** Error state and classification *)

Ltac differ :=
  let E := fresh "E" in
  intros E;
  first [ discriminate E
        | cbv [ERR_NONE ERR_CONNECTION ERR_HTTPSTATUS ERR_BODYTYPE] in E;
          discriminate E
        | simpl in E; discriminate E ].

Lemma error_report_neq a code msg code' msg' :
  code <> code' -> msg <> msg' ->
  error_report a code msg <> error_report a code' msg'.
Proof.
  unfold error_report. intros Hc Hm. destruct (truthy a); congruence.
Qed.

Lemma isSuccessResponse_statusOK c :
  isSuccessResponse c = true -> isStatusOK c = true.
Proof. unfold isSuccessResponse. now intros [H _]%andb_true_iff. Qed.

(** The four exits of [errorState], each with the test that leads to it. *)
Lemma errorState_exits a c :
  (status c = 0
   /\ errorState a c = error_report a ERR_CONNECTION "Connection failed")
  \/ (status c <> 0 /\ isStatusOK c = false
      /\ errorState a c
         = error_report a ERR_HTTPSTATUS ("HTTP " ++ number_to_string (status c)))
  \/ (isStatusOK c = true /\ isSuccessResponse c = false
      /\ errorState a c
         = error_report a ERR_BODYTYPE "Unexpected response body format")
  \/ (isSuccessResponse c = true
      /\ errorState a c = error_report a ERR_NONE "No error").
Proof.
  unfold errorState, error_report.
  assert (Hz : truthy (JNum (status c)) = negb (status c =? 0)) by reflexivity.
  rewrite Hz, negb_involutive.
  destruct (status c =? 0) eqn:E0.
  - left. apply Z.eqb_eq in E0. now split.
  - apply Z.eqb_neq in E0. right.
    destruct (isStatusOK c) eqn:Eok; simpl.
    + right. destruct (isSuccessResponse c) eqn:Es; simpl; [right | left]; auto.
    + left. auto.
Qed.

Lemma errorState_none_iff (c : XHR) (asString : jsval) :
  isSuccessResponse c = true
  <-> errorState asString c = error_report asString ERR_NONE "No error".
Proof.
  destruct (errorState_exits asString c)
    as [(H0 & He) | [(Hn & Hok & He) | [(Hok & Hs & He) | (Hs & He)]]];
    rewrite He.
  - split.
    + intros Hs. apply isSuccessResponse_statusOK, isStatusOK_iff in Hs. lia.
    + intros H. exfalso. revert H. apply error_report_neq; differ.
  - split.
    + intros Hs. apply isSuccessResponse_statusOK in Hs. congruence.
    + intros H. exfalso. revert H. apply error_report_neq; differ.
  - split; [congruence|].
    intros H. exfalso. revert H. apply error_report_neq; differ.
  - tauto.
Qed.

(** X1: [errorState] reports no error exactly when [isSuccessResponse]
    holds, in the code form and in the message form alike. *)
Theorem errorState_none_iff_success (c : XHR) (asString : jsval) :
  isSuccessResponse c = true
  <-> errorState asString c = error_report asString ERR_NONE "No error".
Proof. exact (errorState_none_iff c asString). Qed.

(** X2: [errorState] reports BODYTYPE exactly when the status is in
    [200,300), the response type is not empty and the response is null or
    undefined; after [responseType("")] it never does, and
    [isSuccessResponse] is then [isStatusOK]. *)
Theorem errorState_bodytype_iff (c : XHR) (asString : jsval) :
  (errorState asString c
   = error_report asString ERR_BODYTYPE "Unexpected response body format"
   <-> 200 <= status c < 300
       /\ XMLHttpRequest.responseType (xhr c) <> ""
       /\ (response c = JNull \/ response c = JUndefined))
  /\ errorState asString (fst (responseType (JStr "") c))
     <> error_report asString ERR_BODYTYPE "Unexpected response body format"
  /\ isSuccessResponse (fst (responseType (JStr "") c))
     = isStatusOK (fst (responseType (JStr "") c)).
Proof.
  assert (Hbody : forall d,
    isStatusOK d = true /\ isSuccessResponse d = false
    <-> 200 <= status d < 300
        /\ XMLHttpRequest.responseType (xhr d) <> ""
        /\ (response d = JNull \/ response d = JUndefined)).
  { intros d. rewrite isStatusOK_iff. split.
    - intros [Hok Hs]. split; [exact Hok|].
      destruct (string_dec (XMLHttpRequest.responseType (xhr d)) "") as [E | E].
      + exfalso. apply not_true_iff_false in Hs. apply Hs.
        apply isSuccessResponse_iff. auto.
      + split; [exact E|].
        unfold response in *. destruct (XMLHttpRequest.response (xhr d)) eqn:Er;
          auto; exfalso; apply not_true_iff_false in Hs; apply Hs;
          apply isSuccessResponse_iff; (split; [exact Hok|]); right;
          unfold response; rewrite Er; split; discriminate.
    - intros (Hok & Hrt & Hresp). split; [exact Hok|].
      apply not_true_iff_false. intros Hs. apply isSuccessResponse_iff in Hs.
      destruct Hs as [_ [E | [Hn Hu]]]; [contradiction|].
      destruct Hresp; contradiction. }
  assert (Hiff : forall d,
    errorState asString d
    = error_report asString ERR_BODYTYPE "Unexpected response body format"
    <-> isStatusOK d = true /\ isSuccessResponse d = false).
  { intros d.
    destruct (errorState_exits asString d)
      as [(H0 & He) | [(Hn & Hok & He) | [(Hok & Hs & He) | (Hs & He)]]];
      rewrite He.
    - split.
      + intros H. exfalso. revert H. apply error_report_neq; differ.
      + intros [Hok _]. apply isStatusOK_iff in Hok. lia.
    - split.
      + intros H. exfalso. revert H. apply error_report_neq; differ.
      + intros [Hok' _]. congruence.
    - tauto.
    - split.
      + intros H. exfalso. revert H. apply error_report_neq; differ.
      + intros [_ Hs']. congruence. }
  split; [|split].
  - rewrite Hiff. apply Hbody.
  - rewrite Hiff, Hbody. intros (_ & Hrt & _). now apply Hrt.
  - unfold isSuccessResponse. simpl. now rewrite andb_true_r.
Qed.

(** X3: the message form and the code form of [errorState] agree: each
    message goes with its code, and only the truthiness of [asString]
    selects the form. *)
Theorem errorState_forms_agree (c : XHR) (asString : jsval) :
  errorState asString c
  = (if truthy asString then errorState (JBool true) c
     else errorState (JBool false) c)
  /\ (errorState (JBool false) c = JNum ERR_CONNECTION
      <-> errorState (JBool true) c = JStr "Connection failed")
  /\ (errorState (JBool false) c = JNum ERR_HTTPSTATUS
      <-> errorState (JBool true) c
          = JStr ("HTTP " ++ number_to_string (status c)))
  /\ (errorState (JBool false) c = JNum ERR_BODYTYPE
      <-> errorState (JBool true) c = JStr "Unexpected response body format")
  /\ (errorState (JBool false) c = JNum ERR_NONE
      <-> errorState (JBool true) c = JStr "No error").
Proof.
  split.
  - unfold errorState. destruct (truthy asString); reflexivity.
  - destruct (errorState_exits (JBool false) c)
      as [(H0 & He) | [(Hn & Hok & He) | [(Hok & Hs & He) | (Hs & He)]]];
      destruct (errorState_exits (JBool true) c)
      as [(H0' & He') | [(Hn' & Hok' & He') | [(Hok' & Hs' & He') | (Hs' & He')]]];
      try congruence;
      try (apply isSuccessResponse_statusOK in Hs);
      try (apply isSuccessResponse_statusOK in Hs');
      try congruence;
      try (apply isStatusOK_iff in Hok; lia);
      try (apply isStatusOK_iff in Hok'; lia);
      try (apply isStatusOK_iff in Hs; lia);
      try (apply isStatusOK_iff in Hs'; lia);
      rewrite He, He'; unfold error_report; simpl;
      repeat split; intros H; try reflexivity; exfalso; revert H; differ.
Qed.

Lemma number_to_string_inj n m :
  number_to_string n = number_to_string m -> n = m.
Proof.
  unfold number_to_string. intros H.
  apply DecimalZ.to_int_inj.
  assert (Hnn : forall z, Z.to_int z <> Decimal.Pos Decimal.Nil
                          /\ Z.to_int z <> Decimal.Neg Decimal.Nil).
  { intros [|p|p]; simpl; split; try discriminate;
      intros [= E]; now apply DecimalPos.Unsigned.to_uint_nonnil in E. }
  destruct (Hnn n) as [Hn1 Hn2], (Hnn m) as [Hm1 Hm2].
  pose proof (NilZero.isi _ Hn1 Hn2) as In.
  pose proof (NilZero.isi _ Hm1 Hm2) as Im.
  rewrite H in In. congruence.
Qed.

(** X4: two settled instances with different status codes outside
    [200,300) and other than 0 get different "HTTP <status>" messages. *)
Theorem errorState_message_tells_status (c d : XHR)
        (Hc : status c <> 0) (Hc' : ~ 200 <= status c < 300)
        (Hd : status d <> 0) (Hd' : ~ 200 <= status d < 300) :
  errorState (JBool true) c = errorState (JBool true) d <-> status c = status d.
Proof.
  assert (Hmsg : forall e, status e <> 0 -> ~ 200 <= status e < 300 ->
            errorState (JBool true) e
            = JStr ("HTTP " ++ number_to_string (status e))).
  { intros e H0 Hout.
    destruct (errorState_exits (JBool true) e)
      as [(H0' & He) | [(Hn & Hok & He) | [(Hok & Hs & He) | (Hs & He)]]].
    - contradiction.
    - exact He.
    - apply isStatusOK_iff in Hok. contradiction.
    - apply isSuccessResponse_statusOK, isStatusOK_iff in Hs. contradiction. }
  rewrite (Hmsg c Hc Hc'), (Hmsg d Hd Hd'). split.
  - intros [= H]. now apply number_to_string_inj.
  - now intros ->.
Qed.

Lemma errorState_message_tells_status_witness :
  status (settled 404 "" JNull sample) <> 0
  /\ status (settled 503 "json" JNull sample) <> 0
  /\ errorState (JBool true) (settled 404 "" JNull sample)
     <> errorState (JBool true) (settled 503 "json" JNull sample).
Proof.
  assert (H1 : status (settled 404 "" JNull sample) <> 0) by discriminate.
  assert (H2 : status (settled 503 "json" JNull sample) <> 0) by discriminate.
  split; [exact H1|]. split; [exact H2|].
  intros E.
  assert (H3 : ~ 200 <= status (settled 404 "" JNull sample) < 300) by (cbn; lia).
  assert (H4 : ~ 200 <= status (settled 503 "json" JNull sample) < 300) by (cbn; lia).
  apply (errorState_message_tells_status _ _ H1 H3 H2 H4) in E.
  discriminate E.
Defined.

(** ** User data and headers *)

Lemma delete_set_absent k v o :
  Obj.lookup k o = None -> Obj.delete k (Obj.set k v o) = o.
Proof.
  induction o as [|[k' v'] r IH]; simpl.
  - now rewrite String.eqb_refl.
  - destruct (k =? k')%string eqn:E; [discriminate|].
    intros H. simpl. now rewrite E, IH.
Qed.

Lemma with_data_id c : with_data (fun d => d) c = c.
Proof. now destruct c. Qed.




(** Whatever [setData] does, it does to the entry of that name only. *)
Lemma setData_shape name v c :
  setData name v c = c
  \/ setData name v c = with_data (Obj.set (str_value name) v) c
  \/ setData name v c = with_data (Obj.delete (str_value name)) c.
Proof.
  unfold setData, setData_call.
  destruct (_ && _)%bool; [|now left].
  assert (Hassign : forall w,
    fst (match obj_assign (str_value name) w (data c) with
         | Stored d => (with_data (fun _ => d) c, ReturnsThis)
         | PrototypeChanged => (c, LeavesModel)
         end) = c
    \/ fst (match obj_assign (str_value name) w (data c) with
            | Stored d => (with_data (fun _ => d) c, ReturnsThis)
            | PrototypeChanged => (c, LeavesModel)
            end) = with_data (Obj.set (str_value name) w) c).
  { intros w. unfold obj_assign.
    destruct (Obj.hasOwnProperty (str_value name) (data c)); [now right|].
    destruct (str_value name =? "__proto__")%string; [|now right].
    left. destruct w; simpl; try reflexivity; now destruct c. }
  destruct v; try (destruct (Hassign JNull) as [H | H]; fail);
    try (match goal with
         | |- context [obj_assign _ ?w _] =>
             destruct (Hassign w) as [H | H]; [left | right; left]; exact H
         end).
  destruct (hasOwnProperty_callee (data c)); try now left.
  destruct (Obj.hasOwnProperty (str_value name) (data c)); [right; now right | now left].
Qed.



(** X6: [setHeader] with a name that is not a non-empty string returns the
    instance unchanged, whatever the value; so does removing a header that
    is not stored, on an instance that holds no header named
    "hasOwnProperty". *)
Theorem setHeader_ignored (c : XHR) (name value : jsval) :
  (nonempty_string name = false ->
   setHeader_call name value c = (c, ReturnsThis))
  /\ (nonempty_string value = false ->
      Obj.lookup "hasOwnProperty" (headers c) = None ->
      Obj.lookup (str_value name) (headers c) = None ->
      setHeader_call name value c = (c, ReturnsThis)).
Proof.
  unfold setHeader_call. rewrite !truthy_length. split.
  - now intros ->.
  - intros -> Hb Habs. rewrite (callee_builtin _ Hb).
    unfold Obj.hasOwnProperty. rewrite Habs.
    now destruct (nonempty_string name).
Qed.

Lemma setHeader_ignored_witness :
  nonempty_string (JStr "") = false
  /\ setHeader_call (JStr "") (JStr "v") sample = (sample, ReturnsThis)
  /\ setHeader_call (JStr "Accept") JNull sample = (sample, ReturnsThis).
Proof.
  split; [reflexivity|]. split.
  - exact (proj1 (setHeader_ignored sample (JStr "") (JStr "v")) eq_refl).
  - exact (proj2 (setHeader_ignored sample (JStr "Accept") JNull)
                 eq_refl eq_refl eq_refl).
Defined.

(** X7: on an instance that holds no header named "hasOwnProperty", for a
    name other than "hasOwnProperty" under which no header is stored,
    setting a header and then removing it gives back the instance as it
    was, and both calls return. *)
Theorem setHeader_then_remove (c : XHR) (name : string) (v : jsval)
        (Hown : name <> "hasOwnProperty")
        (Hplain : Obj.lookup "hasOwnProperty" (headers c) = None)
        (Habsent : Obj.lookup name (headers c) = None) :
  setHeader (JStr name) JUndefined (setHeader (JStr name) v c) = c
  /\ snd (setHeader_call (JStr name) v c) = ReturnsThis
  /\ snd (setHeader_call (JStr name) JUndefined (setHeader (JStr name) v c))
     = ReturnsThis.
Proof.
  destruct (string_dec name "") as [-> | Hname]; [repeat split|].
  assert (Hfirst : exists h,
             setHeader_call (JStr name) v c = (with_headers (fun _ => h) c, ReturnsThis)
             /\ Obj.lookup "hasOwnProperty" h = None
             /\ Obj.delete name h = headers c).
  { destruct (nonempty_string v) eqn:Hv.
    - rewrite (setHeader_store name v c Hname Hv).
      unfold Obj.hasOwnProperty. rewrite Habsent. simpl.
      destruct (negb (name =? "__proto__")%string).
      + eexists. split; [reflexivity|]. split.
        * now rewrite ObjFacts.lookup_set_other.
        * now apply delete_set_absent.
      + eexists. split; [reflexivity|]. split; [exact Hplain|].
        now apply ObjFacts.delete_absent.
    - rewrite (setHeader_remove name v c Hname Hv Hplain).
      exists (Obj.delete name (headers c)). split; [reflexivity|]. split.
      + now rewrite ObjFacts.lookup_delete_other.
      + rewrite !ObjFacts.delete_absent; try assumption; try reflexivity.
        now rewrite ObjFacts.delete_absent. }
  destruct Hfirst as (h & Hcall & Hh & Hdel).
  unfold setHeader. rewrite Hcall. simpl fst. simpl snd.
  rewrite (setHeader_remove name JUndefined (with_headers (fun _ => h) c)
                           Hname eq_refl Hh). simpl.
  split; [|split; reflexivity].
  unfold with_headers. simpl. rewrite Hdel. now destruct c.
Qed.

Lemma setHeader_then_remove_witness :
  "Accept"%string <> "hasOwnProperty"%string
  /\ Obj.lookup "hasOwnProperty" (headers sample) = None
  /\ Obj.lookup "Accept" (headers sample) = None
  /\ setHeader (JStr "Accept") JUndefined
               (setHeader (JStr "Accept") (JStr "text/html") sample)
     = sample.
Proof.
  assert (H : "Accept"%string <> "hasOwnProperty"%string) by discriminate.
  split; [exact H|]. split; [reflexivity|]. split; [reflexivity|].
  exact (proj1 (setHeader_then_remove sample "Accept" (JStr "text/html")
                                      H eq_refl eq_refl)).
Defined.

Lemma lookup_assign_string k n v o :
  nonempty_string v = true ->
  Obj.lookup k (if (Obj.hasOwnProperty n o || negb (n =? "__proto__")%string)%bool
                then Obj.set n v o else o)
  = if (k =? n)%string
    then (if (Obj.hasOwnProperty n o || negb (n =? "__proto__")%string)%bool
          then Some v else None)
    else Obj.lookup k o.
Proof.
  intros Hv. destruct (k =? n)%string eqn:E.
  - apply String.eqb_eq in E. subst k. unfold Obj.hasOwnProperty.
    destruct (Obj.lookup n o) eqn:En; simpl.
    + apply ObjFacts.lookup_set_same.
    + destruct (negb (n =? "__proto__")%string);
        [apply ObjFacts.lookup_set_same | exact En].
  - apply String.eqb_neq in E.
    destruct (_ || _)%bool; [now apply ObjFacts.lookup_set_other | reflexivity].
Qed.

(** The header [k] after [setHeader(name, v)], on an instance that holds no
    header named "hasOwnProperty". *)
Lemma setHeader_lookup name v c k :
  name <> "" -> Obj.lookup "hasOwnProperty" (headers c) = None ->
  Obj.lookup k (headers (setHeader (JStr name) v c))
  = if (k =? name)%string
    then (if nonempty_string v
          then (if (Obj.hasOwnProperty name (headers c)
                    || negb (name =? "__proto__")%string)%bool
                then Some v else None)
          else None)
    else Obj.lookup k (headers c).
Proof.
  intros Hname Hb. unfold setHeader. destruct (nonempty_string v) eqn:Hv.
  - rewrite (setHeader_store name v c Hname Hv). simpl.
    now apply lookup_assign_string.
  - rewrite (setHeader_remove name v c Hname Hv Hb). simpl.
    destruct (k =? name)%string eqn:E.
    + apply String.eqb_eq in E. subst k. apply ObjFacts.lookup_delete_same.
    + apply String.eqb_neq in E. now apply ObjFacts.lookup_delete_other.
Qed.

(** X8: on an instance that holds no header named "hasOwnProperty",
    [setHeader] calls on two different names, neither of them
    "hasOwnProperty", can be made in either order: every header has the
    same value afterwards. *)
Theorem setHeader_commute (c : XHR) (n1 n2 : string) (v1 v2 : jsval)
        (Hdiff : n1 <> n2)
        (H1 : n1 <> "hasOwnProperty") (H2 : n2 <> "hasOwnProperty")
        (Hplain : Obj.lookup "hasOwnProperty" (headers c) = None) :
  forall k,
    Obj.lookup k (headers (setHeader (JStr n1) v1 (setHeader (JStr n2) v2 c)))
    = Obj.lookup k (headers (setHeader (JStr n2) v2 (setHeader (JStr n1) v1 c))).
Proof.
  intros k.
  destruct (string_dec n1 "") as [-> | Hn1]; [reflexivity|].
  destruct (string_dec n2 "") as [-> | Hn2]; [reflexivity|].
  assert (Hk1 : Obj.lookup "hasOwnProperty" (headers (setHeader (JStr n1) v1 c)) = None).
  { rewrite setHeader_lookup by assumption.
    apply not_eq_sym, String.eqb_neq in H1. now rewrite H1. }
  assert (Hk2 : Obj.lookup "hasOwnProperty" (headers (setHeader (JStr n2) v2 c)) = None).
  { rewrite setHeader_lookup by assumption.
    apply not_eq_sym, String.eqb_neq in H2. now rewrite H2. }
  assert (Ho1 : Obj.hasOwnProperty n1 (headers (setHeader (JStr n2) v2 c))
                = Obj.hasOwnProperty n1 (headers c)).
  { unfold Obj.hasOwnProperty. rewrite setHeader_lookup by assumption.
    apply String.eqb_neq in Hdiff. now rewrite Hdiff. }
  assert (Ho2 : Obj.hasOwnProperty n2 (headers (setHeader (JStr n1) v1 c))
                = Obj.hasOwnProperty n2 (headers c)).
  { unfold Obj.hasOwnProperty. rewrite setHeader_lookup by assumption.
    apply not_eq_sym, String.eqb_neq in Hdiff. now rewrite Hdiff. }
  rewrite (setHeader_lookup n1 v1 _ k Hn1 Hk2), (setHeader_lookup n2 v2 _ k Hn2 Hk1).
  rewrite (setHeader_lookup n2 v2 c k Hn2 Hplain), (setHeader_lookup n1 v1 c k Hn1 Hplain).
  rewrite Ho1, Ho2.
  destruct (k =? n1)%string eqn:E1, (k =? n2)%string eqn:E2; try reflexivity.
  apply String.eqb_eq in E1, E2. congruence.
Qed.

Lemma setHeader_commute_witness :
  "Accept"%string <> "X-Test"%string
  /\ "Accept"%string <> "hasOwnProperty"%string
  /\ "X-Test"%string <> "hasOwnProperty"%string
  /\ Obj.lookup "hasOwnProperty" (headers sample) = None
  /\ Obj.lookup "X-Test"
       (headers (setHeader (JStr "Accept") (JStr "a")
                           (setHeader (JStr "X-Test") JUndefined sample)))
     = Obj.lookup "X-Test"
         (headers (setHeader (JStr "X-Test") JUndefined
                             (setHeader (JStr "Accept") (JStr "a") sample))).
Proof.
  assert (Hd : "Accept"%string <> "X-Test"%string) by discriminate.
  assert (H1 : "Accept"%string <> "hasOwnProperty"%string) by discriminate.
  assert (H2 : "X-Test"%string <> "hasOwnProperty"%string) by discriminate.
  split; [exact Hd|]. split; [exact H1|]. split; [exact H2|].
  split; [reflexivity|].
  exact (setHeader_commute sample "Accept" "X-Test" (JStr "a") JUndefined
                           Hd H1 H2 eq_refl "X-Test").
Defined.

(** ** One cookie at a time *)

Lemma setCookie_guard name value :
  ((js_typeof name =? "string")%string && truthy (js_length name)
   && (js_typeof value =? "string")%string && truthy (js_length value))%bool
  = (nonempty_string name && nonempty_string value)%bool.
Proof. now rewrite <- andb_assoc, !truthy_length. Qed.

Lemma string_app_assoc (a b d : string) : ((a ++ b) ++ d = a ++ b ++ d)%string.
Proof. induction a as [|ch a IH]; simpl; [reflexivity | now rewrite IH]. Qed.

Lemma concat_snoc sep acc x :
  acc <> [] ->
  String.concat sep (acc ++ [x]) = (String.concat sep acc ++ sep ++ x)%string.
Proof.
  induction acc as [|a r IH]; [contradiction|]. intros _.
  destruct r as [|b r]; [reflexivity|].
  change (String.concat sep ((a :: b :: r) ++ [x]))
    with (a ++ sep ++ String.concat sep ((b :: r) ++ [x]))%string.
  rewrite IH by discriminate.
  change (String.concat sep (a :: b :: r))
    with (a ++ sep ++ String.concat sep (b :: r))%string.
  now rewrite !string_app_assoc.
Qed.

Lemma setCookie_cases (c : XHR) (n s : string)
        (Hn : n <> "") (Hs : s <> "") :
  (Obj.lookup "Cookie" (headers c) = None ->
   setCookie (JStr n) (JStr s) c
   = Some (with_headers
             (Obj.set "Cookie" (JStr (n ++ "=" ++ encodeURIComponent s))) c))
  /\ (forall old,
         Obj.lookup "Cookie" (headers c) = Some (JStr old) ->
         setCookie (JStr n) (JStr s) c
         = Some (with_headers
                   (Obj.set "Cookie"
                            (JStr (old ++ "; " ++ n ++ "=" ++ encodeURIComponent s)))
                   c))
  /\ (forall name value,
         nonempty_string name = false \/ nonempty_string value = false ->
         setCookie name value c = Some c).
Proof.
  assert (Hg : (nonempty_string (JStr n) && nonempty_string (JStr s))%bool = true).
  { apply andb_true_iff. split; now apply truthy_string. }
  split; [|split].
  - intros Habs. unfold setCookie. rewrite setCookie_guard, Hg.
    unfold Obj.hasOwnProperty. now rewrite Habs.
  - intros old Hold. unfold setCookie. rewrite setCookie_guard, Hg.
    unfold Obj.hasOwnProperty, Obj.get. now rewrite Hold.
  - intros name value Hbad. unfold setCookie. rewrite setCookie_guard.
    destruct Hbad as [-> | ->]; [reflexivity|].
    now rewrite andb_false_r.
Qed.


(** X9: [setCookie(name, value)] with two non-empty strings creates the
    "Cookie" header as [name=encoded value] when there is none, and
    otherwise appends ["; name=encoded value"] to the stored string; with a
    name or a value that is not a non-empty string it changes nothing. *)
Theorem setCookie_appends (c : XHR) (n s : string)
        (Hn : n <> "") (Hs : s <> "") :
  (Obj.lookup "Cookie" (headers c) = None ->
   setCookie (JStr n) (JStr s) c
   = Some (with_headers
             (Obj.set "Cookie" (JStr (n ++ "=" ++ encodeURIComponent s))) c))
  /\ (forall old,
         Obj.lookup "Cookie" (headers c) = Some (JStr old) ->
         setCookie (JStr n) (JStr s) c
         = Some (with_headers
                   (Obj.set "Cookie"
                            (JStr (old ++ "; " ++ n ++ "=" ++ encodeURIComponent s)))
                   c))
  /\ (forall name value,
         nonempty_string name = false \/ nonempty_string value = false ->
         setCookie name value c = Some c).
Proof. exact (setCookie_cases c n s Hn Hs). Qed.

Lemma setCookie_appends_witness :
  "b"%string <> ""%string /\ "x y"%string <> ""%string
  /\ setCookie (JStr "b") (JStr "x y")
               (setHeader (JStr "Cookie") (JStr "a=1") sample)
     = Some (with_headers (Obj.set "Cookie" (JStr "a=1; b=x%20y"))
                          (setHeader (JStr "Cookie") (JStr "a=1") sample)).
Proof.
  assert (Hn : "b"%string <> ""%string) by discriminate.
  assert (Hs : "x y"%string <> ""%string) by discriminate.
  split; [exact Hn|]. split; [exact Hs|].
  exact (proj1 (proj2 (setCookie_appends
                         (setHeader (JStr "Cookie") (JStr "a=1") sample)
                         "b" "x y" Hn Hs))
               "a=1" eq_refl).
Defined.

Lemma setCookie_each_run l :
  Forall (fun e => fst e <> "") l ->
  forall d acc,
    cookie_header_is acc d ->
    exists d',
      setCookie_each l d = Some d'
      /\ cookie_header_is
           (acc ++ map cookie_entry (filter (fun e => nonempty_string (snd e)) l)) d'
      /\ (forall k, k <> "Cookie" ->
                    Obj.lookup k (headers d') = Obj.lookup k (headers d)).
Proof.
  induction l as [|[n v] l IH]; intros Hl d acc Hd.
  - exists d. simpl. rewrite app_nil_r. auto.
  - inversion Hl as [|? ? Hn Hl']; subst. simpl in Hn.
    simpl setCookie_each. simpl filter.
    destruct (nonempty_string v) eqn:Hv.
    + apply nonempty_string_inv in Hv. destruct Hv as (s & -> & Hs).
      destruct (setCookie_cases d n s Hn Hs) as (Hnew & Hold & _).
      assert (Hstep : exists d1,
                 setCookie (JStr n) (JStr s) d = Some d1
                 /\ cookie_header_is (acc ++ [cookie_entry (n, JStr s)]) d1
                 /\ (forall k, k <> "Cookie" ->
                               Obj.lookup k (headers d1) = Obj.lookup k (headers d))).
      { unfold cookie_header_is in Hd. destruct acc as [|a acc'].
        - rewrite (Hnew Hd). eexists. split; [reflexivity|]. split.
          + unfold cookie_header_is. simpl. apply ObjFacts.lookup_set_same.
          + intros k Hk. simpl. now apply ObjFacts.lookup_set_other.
        - rewrite (Hold _ Hd). eexists. split; [reflexivity|]. split.
          + unfold cookie_header_is. simpl headers.
            rewrite ObjFacts.lookup_set_same.
            rewrite concat_snoc by discriminate.
            destruct (acc' ++ [cookie_entry (n, JStr s)])%list eqn:E.
            * now destruct acc'.
            * reflexivity.
          + intros k Hk. simpl. now apply ObjFacts.lookup_set_other. }
      destruct Hstep as (d1 & -> & Hd1 & Hother).
      destruct (IH Hl' d1 _ Hd1) as (d' & Hrun & Hd' & Hother').
      exists d'. split; [exact Hrun|]. split.
      * simpl map. now rewrite <- app_assoc in Hd'.
      * intros k Hk. now rewrite Hother', Hother.
    + destruct (setCookie_cases d "x" "x") as (_ & _ & Hbad);
        try discriminate.
      rewrite (Hbad (JStr n) v (or_intror Hv)).
      apply IH; assumption.
Qed.

Lemma setCookies_clear c :
  Obj.lookup "hasOwnProperty" (headers c) = None ->
  setCookies_call JUndefined c = (with_headers (Obj.delete "Cookie") c, ReturnsThis).
Proof. intros Hb. apply setCookies_call_clear; [discriminate | exact Hb]. Qed.

(** X10: for a map with unique, non-empty property names and no entry
    named "hasOwnProperty", on an instance that holds no header named
    "hasOwnProperty", [setCookies(map)] leaves every header with the value
    it has after removing the "Cookie" header with [setCookies()] and
    calling [setCookie] for each property of the map in enumeration
    order. *)
Theorem setCookies_as_setCookie_each (c : XHR) (o : obj)
        (Hwf : Obj.wf o) (Hnames : Forall (fun e => fst e <> "") o)
        (Hmap : Obj.lookup "hasOwnProperty" o = None)
        (Hplain : Obj.lookup "hasOwnProperty" (headers c) = None) :
  snd (setCookies_call JUndefined c) = ReturnsThis
  /\ snd (setCookies_call (JObject o) c) = ReturnsThis
  /\ exists c',
      setCookie_each (Obj.enumerate o) (setCookies JUndefined c) = Some c'
      /\ forall k, Obj.lookup k (headers c')
                   = Obj.lookup k (headers (setCookies (JObject o) c)).
Proof.
  assert (Hl : Forall (fun e => fst e <> "") (Obj.enumerate o)).
  { apply Forall_forall. intros e He.
    apply (proj1 (ObjFacts.enumerate_In e o)) in He.
    exact (proj1 (Forall_forall _ _) Hnames e He). }
  assert (Hclear := setCookies_clear c Hplain).
  assert (H0 : cookie_header_is [] (setCookies JUndefined c)).
  { unfold cookie_header_is, setCookies. rewrite Hclear. simpl.
    apply ObjFacts.lookup_delete_same. }
  split; [now rewrite Hclear|]. split.
  { destruct (encoded_cookies o) as [|e l] eqn:E.
    - rewrite setCookies_call_clear; [reflexivity | | exact Hplain].
      intros _. simpl props_of.
      now rewrite (encode_loop_builtin o _ [] Hmap), (setCookies_loop o Hwf), E.
    - rewrite setCookies_call_set; try assumption; [reflexivity|].
      rewrite E. discriminate. }
  destruct (setCookie_each_run _ Hl _ _ H0) as (c' & Hrun & Hc' & Hother).
  exists c'. split; [exact Hrun|]. intros k.
  destruct (string_dec k "Cookie") as [-> | Hk].
  - unfold cookie_header_is in Hc'. simpl app in Hc'.
    fold (encoded_cookies o) in Hc'. rewrite Hc'.
    rewrite (setCookies_eq o c Hwf Hmap Hplain). simpl.
    destruct (encoded_cookies o).
    + symmetry. apply ObjFacts.lookup_delete_same.
    + symmetry. apply ObjFacts.lookup_set_same.
  - rewrite (Hother k Hk). unfold setCookies at 1. rewrite Hclear. simpl.
    rewrite (ObjFacts.lookup_delete_other "Cookie" k _ Hk).
    rewrite (setCookies_eq o c Hwf Hmap Hplain). simpl.
    destruct (encoded_cookies o).
    + symmetry. now apply ObjFacts.lookup_delete_other.
    + symmetry. now apply ObjFacts.lookup_set_other.
Qed.

Lemma setCookies_as_setCookie_each_witness :
  Obj.wf [("a", JStr "1"); ("skip", JNull); ("b", JStr "2")]
  /\ Forall (fun e => fst e <> "")
            [("a", JStr "1"); ("skip", JNull); ("b", JStr "2")]
  /\ Obj.lookup "hasOwnProperty" [("a", JStr "1"); ("skip", JNull); ("b", JStr "2")]
     = None
  /\ Obj.lookup "hasOwnProperty" (headers sample) = None
  /\ exists c',
       setCookie_each
         (Obj.enumerate [("a", JStr "1"); ("skip", JNull); ("b", JStr "2")])
         (setCookies JUndefined sample) = Some c'
       /\ forall k,
           Obj.lookup k (headers c')
           = Obj.lookup k
               (headers (setCookies
                           (JObject [("a", JStr "1"); ("skip", JNull); ("b", JStr "2")])
                           sample)).
Proof.
  assert (Hwf : Obj.wf [("a", JStr "1"); ("skip", JNull); ("b", JStr "2")]).
  { unfold Obj.wf. simpl.
    repeat (constructor; [simpl; intuition discriminate|]). constructor. }
  assert (Hn : Forall (fun e => fst e <> "")
                      [("a", JStr "1"); ("skip", JNull); ("b", JStr "2")]).
  { repeat (constructor; [simpl; discriminate|]). constructor. }
  split; [exact Hwf|]. split; [exact Hn|]. split; [reflexivity|].
  split; [reflexivity|].
  exact (proj2 (proj2 (setCookies_as_setCookie_each sample _ Hwf Hn eq_refl eq_refl))).
Defined.

(** ** Encoded values *)

Lemma escape_safe ch :
  uri_unreserved ch = false ->
  (uri_safe (hex_digit (N_of_ascii ch / 16))
   && uri_safe (hex_digit (N_of_ascii ch mod 16)))%bool = true.
Proof.
  destruct ch as [[] [] [] [] [] [] [] []]; intros H;
    first [ discriminate H | reflexivity ].
Qed.

Lemma encodeURIComponent_safe s :
  string_forallb uri_safe (encodeURIComponent s) = true.
Proof.
  induction s as [|ch r IH]; [reflexivity|]. simpl.
  destruct (uri_unreserved ch) eqn:E; simpl.
  - unfold uri_safe at 1. now rewrite E, IH.
  - pose proof (escape_safe ch E) as H. apply andb_true_iff in H.
    destruct H as [H1 H2]. now rewrite H1, H2, IH.
Qed.

Lemma uri_safe_no_separator ch :
  uri_safe ch = true -> cookie_separator ch = false.
Proof.
  destruct ch as [[] [] [] [] [] [] [] []]; intros H;
    first [ discriminate H | reflexivity ].
Qed.

Lemma string_forallb_impl (p q : ascii -> bool) s :
  (forall ch, p ch = true -> q ch = true) ->
  string_forallb p s = true -> string_forallb q s = true.
Proof.
  intros Hpq. induction s as [|ch r IH]; simpl; [reflexivity|].
  intros [Hc Hr]%andb_true_iff. now rewrite (Hpq ch Hc), IH.
Qed.

(** X11: what [setCookie] and [setCookies] write for a non-empty name and
    a non-empty string value is the name, [=], and a value part that holds
    unreserved characters and percent escapes only, so no [;], space, [=]
    or [,].  [setCookie] writes it as the whole header when there was none
    and after ["; "] appended to the stored string otherwise; [setCookies]
    with a map of this one entry, named other than "hasOwnProperty", writes
    it as the whole header. *)
Theorem cookie_value_safe (c : XHR) (n s : string)
        (Hn : n <> "") (Hs : s <> "") :
  exists t,
    string_forallb uri_safe t = true
    /\ string_forallb (fun ch => negb (cookie_separator ch)) t = true
    /\ (Obj.lookup "Cookie" (headers c) = None ->
        exists c', setCookie (JStr n) (JStr s) c = Some c'
                   /\ Obj.lookup "Cookie" (headers c') = Some (JStr (n ++ "=" ++ t)))
    /\ (forall old,
           Obj.lookup "Cookie" (headers c) = Some (JStr old) ->
           exists c', setCookie (JStr n) (JStr s) c = Some c'
                      /\ Obj.lookup "Cookie" (headers c')
                         = Some (JStr (old ++ "; " ++ n ++ "=" ++ t)))
    /\ (n <> "hasOwnProperty" ->
        setCookies_call (JObject [(n, JStr s)]) c
        = (with_headers (Obj.set "Cookie" (JStr (n ++ "=" ++ t))) c, ReturnsThis)).
Proof.
  exists (encodeURIComponent s).
  destruct (setCookie_cases c n s Hn Hs) as (Hnew & Hold & _).
  split; [apply encodeURIComponent_safe|]. split.
  - apply (string_forallb_impl uri_safe); [|apply encodeURIComponent_safe].
    intros ch Hch. now rewrite (uri_safe_no_separator ch Hch).
  - split; [|split].
    + intros Habs. rewrite (Hnew Habs). eexists. split; [reflexivity|].
      simpl. apply ObjFacts.lookup_set_same.
    + intros old Ho. rewrite (Hold old Ho). eexists. split; [reflexivity|].
      simpl. apply ObjFacts.lookup_set_same.
    + intros Hown.
      assert (Henum : Obj.enumerate [(n, JStr s)] = [(n, JStr s)]).
      { apply Permutation_length_1_inv, Permutation_sym, ObjFacts.enumerate_perm. }
      assert (Henc : encoded_cookies [(n, JStr s)]
                     = [(n ++ "=" ++ encodeURIComponent s)%string]).
      { unfold encoded_cookies. rewrite Henum. simpl.
        apply String.eqb_neq in Hs. now rewrite Hs. }
      rewrite setCookies_call_set.
      * now rewrite Henc.
      * unfold Obj.wf. simpl. constructor; [simpl; tauto | constructor].
      * cbn [Obj.lookup].
        destruct (String.eqb_spec "hasOwnProperty" n) as [E | E];
          [now subst n | reflexivity].
      * rewrite Henc. discriminate.
Qed.

Lemma cookie_value_safe_witness :
  "a"%string <> ""%string /\ "x; y=z"%string <> ""%string
  /\ exists t,
       string_forallb (fun ch => negb (cookie_separator ch)) t = true
       /\ exists c', setCookie (JStr "a") (JStr "x; y=z") sample = Some c'
                     /\ Obj.lookup "Cookie" (headers c') = Some (JStr ("a=" ++ t)).
Proof.
  assert (Hn : "a"%string <> ""%string) by discriminate.
  assert (Hs : "x; y=z"%string <> ""%string) by discriminate.
  split; [exact Hn|]. split; [exact Hs|].
  destruct (cookie_value_safe sample "a" "x; y=z" Hn Hs) as (t & _ & Hsep & Hnew & _).
  exists t. split; [exact Hsep|]. exact (Hnew eq_refl).
Defined.

(** ** Dispatch *)

Lemma send_calls body c :
  truthy (url c) = true ->
  XMLHttpRequest.calls (xhr (fst (send body c)))
  = (XMLHttpRequest.calls (xhr c) ++ dispatch_calls body c)%list.
Proof.
  intros Hurl. rewrite (send_run body c Hurl). simpl fst.
  now rewrite calls_received.
Qed.

Lemma for_in_keys_perm o : Permutation (Obj.for_in_keys o) (map fst o).
Proof. apply Permutation_map, ObjFacts.enumerate_perm. Qed.

Lemma get_of_In o e : Obj.wf o -> In e o -> Obj.get (fst e) o = snd e.
Proof.
  intros Hwf He. destruct e as [k v]. simpl. unfold Obj.get.
  now rewrite (ObjFacts.In_lookup k v o Hwf He).
Qed.

Lemma header_calls_In h k v :
  Obj.wf h ->
  (In (XMLHttpRequest.SetRequestHeader k v) (header_calls h)
   <-> Obj.lookup k h = Some v).
Proof.
  intros Hwf. split; [|apply header_calls_complete].
  unfold header_calls. intros Hin. apply in_map_iff in Hin.
  destruct Hin as (key & [= -> <-] & Hkey).
  unfold Obj.for_in_keys in Hkey. apply in_map_iff in Hkey.
  destruct Hkey as ([k' v'] & Hk & He). simpl in Hk. subst k'.
  apply (proj1 (ObjFacts.enumerate_In _ _)) in He.
  pose proof (get_of_In h (k, v') Hwf He) as Hget. simpl in Hget.
  rewrite Hget. now apply ObjFacts.In_lookup.
Qed.

Lemma header_calls_NoDup h : Obj.wf h -> NoDup (header_calls h).
Proof.
  intros Hwf. unfold header_calls.
  assert (Hk : NoDup (Obj.for_in_keys h)).
  { apply (Permutation_NoDup (l := map fst h)); [|exact Hwf].
    apply Permutation_sym, for_in_keys_perm. }
  induction Hk as [|key keys Hnot Hnd IH]; simpl; constructor; [|exact IH].
  intros Hin. apply in_map_iff in Hin. destruct Hin as (key' & [= ->] & Hin).
  contradiction.
Qed.

(** X12: a dispatch with a non-empty URL makes one [setRequestHeader] per
    stored header and no other: none is skipped, none is applied twice, and
    each carries the stored value. *)
Theorem send_each_header_once (c : XHR) (body : jsval)
        (Hurl : truthy (url c) = true) (Hwf : Obj.wf (headers c)) :
  XMLHttpRequest.calls (xhr (fst (send body c)))
  = (XMLHttpRequest.calls (xhr c)
     ++ XMLHttpRequest.Open (inferred_method (method c) body (postData c))
                            (url c) true (userName c) (password c)
     :: header_calls (headers c)
     ++ [XMLHttpRequest.Send (chosen_body body (postData c))])%list
  /\ NoDup (header_calls (headers c))
  /\ List.length (header_calls (headers c)) = List.length (headers c)
  /\ (forall k v,
         In (XMLHttpRequest.SetRequestHeader k v) (header_calls (headers c))
         <-> Obj.lookup k (headers c) = Some v).
Proof.
  split; [exact (send_calls body c Hurl)|].
  split; [now apply header_calls_NoDup|]. split.
  - unfold header_calls. rewrite length_map.
    rewrite (Permutation_length (for_in_keys_perm (headers c))).
    apply length_map.
  - intros k v. now apply header_calls_In.
Qed.

Lemma send_each_header_once_witness :
  truthy (url sample) = true /\ Obj.wf (headers sample)
  /\ (In (XMLHttpRequest.SetRequestHeader "X-Test" (JStr "OK"))
         (header_calls (headers sample))
      <-> Obj.lookup "X-Test" (headers sample) = Some (JStr "OK")).
Proof.
  assert (Hwf : Obj.wf (headers sample)).
  { unfold Obj.wf. simpl. constructor; [simpl; tauto | constructor]. }
  split; [reflexivity|]. split; [exact Hwf|].
  exact (proj2 (proj2 (proj2 (send_each_header_once sample JUndefined eq_refl Hwf)))
               "X-Test" (JStr "OK")).
Defined.

Lemma enumerate_named o : Forall named_key o -> Obj.enumerate o = o.
Proof.
  unfold Obj.enumerate. intros Hn.
  assert (Hs : Obj.split_keys o = ([], o)).
  { induction Hn as [|e r He Hr IH]; simpl; [reflexivity|].
    rewrite IH. unfold named_key in He. now rewrite He. }
  now rewrite Hs.
Qed.

Lemma set_absent k v o : Obj.lookup k o = None -> Obj.set k v o = (o ++ [(k, v)])%list.
Proof.
  induction o as [|[k' v'] r IH]; simpl; [reflexivity|].
  destruct (k =? k')%string; [discriminate|]. intros H. now rewrite IH.
Qed.

Lemma header_calls_named h :
  Obj.wf h -> Forall named_key h ->
  header_calls h
  = map (fun e => XMLHttpRequest.SetRequestHeader (fst e) (snd e)) h.
Proof.
  intros Hwf Hn. unfold header_calls, Obj.for_in_keys.
  rewrite (enumerate_named h Hn), map_map.
  apply map_ext_in. intros e He. now rewrite (get_of_In h e Hwf He).
Qed.

Lemma wf_snoc k v o :
  Obj.wf o -> Obj.lookup k o = None -> Obj.wf (o ++ [(k, v)])%list.
Proof.
  unfold Obj.wf. intros Hwf Habs. rewrite map_app. simpl.
  apply NoDup_app; [exact Hwf | constructor; [tauto | constructor] |].
  intros k' Hin [-> | []]. apply in_map_iff in Hin.
  destruct Hin as ([k0 v0] & Hk & Hin). simpl in Hk. subst k0.
  rewrite (ObjFacts.In_lookup k' v0 o Hwf Hin) in Habs. discriminate.
Qed.

(** X13: when no header name is an array index, a dispatch applies the
    headers in the order in which their names were first stored; a header
    set under a new name, other than "__proto__", is applied last. *)
Theorem send_headers_in_creation_order (c : XHR)
        (Hwf : Obj.wf (headers c)) (Hnamed : Forall named_key (headers c)) :
  header_calls (headers c)
  = map (fun e => XMLHttpRequest.SetRequestHeader (fst e) (snd e)) (headers c)
  /\ (forall n v,
         n <> "" -> n <> "__proto__" -> nonempty_string v = true ->
         Obj.array_index n = None -> Obj.lookup n (headers c) = None ->
         snd (setHeader_call (JStr n) v c) = ReturnsThis
         /\ header_calls (headers (setHeader (JStr n) v c))
            = (header_calls (headers c)
               ++ [XMLHttpRequest.SetRequestHeader n v])%list).
Proof.
  split; [now apply header_calls_named|].
  intros n v Hn Hproto Hv Hix Habs.
  assert (Hcall := setHeader_store n v c Hn Hv).
  apply String.eqb_neq in Hproto. rewrite Hproto, orb_true_r in Hcall.
  unfold setHeader. rewrite Hcall. simpl fst. simpl snd. simpl headers.
  split; [reflexivity|].
  rewrite (set_absent n v _ Habs).
  rewrite header_calls_named.
  - rewrite map_app. simpl. now rewrite <- header_calls_named.
  - now apply wf_snoc.
  - apply Forall_app. split; [exact Hnamed|]. constructor; [exact Hix | constructor].
Qed.

Lemma send_headers_in_creation_order_witness :
  Obj.wf (headers sample) /\ Forall named_key (headers sample)
  /\ header_calls (headers (setHeader (JStr "Accept") (JStr "text/html") sample))
     = [XMLHttpRequest.SetRequestHeader "X-Test" (JStr "OK");
        XMLHttpRequest.SetRequestHeader "Accept" (JStr "text/html")].
Proof.
  assert (Hwf : Obj.wf (headers sample)).
  { unfold Obj.wf. simpl. constructor; [simpl; tauto | constructor]. }
  assert (Hn : Forall named_key (headers sample)).
  { constructor; [reflexivity | constructor]. }
  split; [exact Hwf|]. split; [exact Hn|].
  refine (proj2 (proj2 (send_headers_in_creation_order sample Hwf Hn)
                       "Accept" (JStr "text/html") _ _ eq_refl eq_refl eq_refl));
    discriminate.
Defined.

(** X14: an instance can be dispatched again: a second [send] with the same
    argument hands the transport the same invocations once more, after
    those of the first. *)
Theorem send_again (c : XHR) (body : jsval) (Hurl : truthy (url c) = true) :
  snd (send body (fst (send body c))) = Normal tt
  /\ XMLHttpRequest.calls (xhr (fst (send body (fst (send body c)))))
     = (XMLHttpRequest.calls (xhr c)
        ++ dispatch_calls body c ++ dispatch_calls body c)%list.
Proof.
  destruct (send_frame body c) as (Hm & Hu & Hp & Hn & Hw & Hh & _).
  assert (Hurl' : truthy (url (fst (send body c))) = true) by now rewrite Hu.
  split.
  - now rewrite (send_run body _ Hurl').
  - rewrite (send_calls body _ Hurl'), (send_calls body c Hurl).
    unfold dispatch_calls. rewrite Hm, Hu, Hp, Hn, Hw, Hh.
    now rewrite <- app_assoc.
Qed.

Lemma send_again_witness :
  truthy (url sample) = true
  /\ XMLHttpRequest.calls (xhr (fst (send JUndefined (fst (send JUndefined sample)))))
     = [XMLHttpRequest.Open (JStr "POST") (JStr "/items") true JUndefined JUndefined;
        XMLHttpRequest.SetRequestHeader "X-Test" (JStr "OK");
        XMLHttpRequest.Send (Some (JStr "stored"));
        XMLHttpRequest.Open (JStr "POST") (JStr "/items") true JUndefined JUndefined;
        XMLHttpRequest.SetRequestHeader "X-Test" (JStr "OK");
        XMLHttpRequest.Send (Some (JStr "stored"))].
Proof.
  split; [reflexivity|].
  exact (proj2 (send_again sample JUndefined eq_refl)).
Defined.

(** [send] assigns none of the properties of the transport. *)
Lemma send_settings body c :
  XMLHttpRequest.responseType (xhr (fst (send body c)))
  = XMLHttpRequest.responseType (xhr c)
  /\ XMLHttpRequest.timeout (xhr (fst (send body c)))
     = XMLHttpRequest.timeout (xhr c)
  /\ XMLHttpRequest.onreadystatechange (xhr (fst (send body c)))
     = XMLHttpRequest.onreadystatechange (xhr c)
  /\ XMLHttpRequest.ontimeout (xhr (fst (send body c)))
     = XMLHttpRequest.ontimeout (xhr c).
Proof.
  destruct (truthy (url c)) eqn:Hurl.
  - rewrite (send_run body c Hurl). simpl fst. rewrite transport_received.
    simpl. tauto.
  - rewrite (send_throws body c Hurl). simpl. tauto.
Qed.

(** X15: [send], whether it throws or not, assigns none of the properties
    the wrapper sets on the transport: the response type, the timeout and
    both handler slots are as before, and so is what a timeout notification
    would run. *)
Theorem send_keeps_transport_settings (c : XHR) (body : jsval) :
  XMLHttpRequest.responseType (xhr (fst (send body c)))
  = XMLHttpRequest.responseType (xhr c)
  /\ XMLHttpRequest.timeout (xhr (fst (send body c)))
     = XMLHttpRequest.timeout (xhr c)
  /\ XMLHttpRequest.onreadystatechange (xhr (fst (send body c)))
     = XMLHttpRequest.onreadystatechange (xhr c)
  /\ XMLHttpRequest.ontimeout (xhr (fst (send body c)))
     = XMLHttpRequest.ontimeout (xhr c)
  /\ timeout_event (fst (send body c)) = timeout_event c.
Proof.
  destruct (send_settings body c) as (Hrt & Ht & Hl & Ho).
  repeat (split; [assumption|]).
  unfold timeout_event. now rewrite Ho.
Qed.

(** X16: a falsy URL given to the constructor or to [reset] (undefined,
    null, 0, the empty string) is stored as the empty string, and the next
    [send] throws without reaching the transport. *)
Theorem send_without_url (c : XHR) (u b m body : jsval)
        (Hu : truthy u = false) :
  url (reset u b m c) = JStr ""
  /\ url (new_XHR u b m) = JStr ""
  /\ send body (reset u b m c)
     = (reset u b m c, Throw (JError "The request URL is empty"))
  /\ send body (new_XHR u b m)
     = (new_XHR u b m, Throw (JError "The request URL is empty")).
Proof.
  assert (Hr : url (reset u b m c) = JStr "") by (simpl; now apply js_or_falsy).
  assert (Hn : url (new_XHR u b m) = JStr "") by (simpl; now apply js_or_falsy).
  split; [exact Hr|]. split; [exact Hn|]. split.
  - apply send_throws. now rewrite Hr.
  - apply send_throws. now rewrite Hn.
Qed.

Lemma send_without_url_witness :
  truthy JNull = false
  /\ send (JStr "body") (reset JNull (JStr "b") (JStr "PUT") sample)
     = (reset JNull (JStr "b") (JStr "PUT") sample,
        Throw (JError "The request URL is empty")).
Proof.
  split; [reflexivity|].
  exact (proj1 (proj2 (proj2 (send_without_url sample JNull (JStr "b") (JStr "PUT")
                                               (JStr "body") eq_refl)))).
Defined.

Lemma send_with_data g body c :
  send body (with_data g c)
  = (with_data g (fst (send body c)), snd (send body c)).
Proof.
  destruct (truthy (url c)) eqn:Hurl.
  - rewrite (send_run body c Hurl), (send_run body (with_data g c) Hurl).
    reflexivity.
  - rewrite (send_throws body c Hurl), (send_throws body (with_data g c) Hurl).
    reflexivity.
Qed.

Lemma setData_only_data name value c :
  setData name value c = with_data (fun _ => data (setData name value c)) c.
Proof.
  destruct (setData_shape name value c) as [H | [H | H]]; rewrite H;
    simpl; now destruct c.
Qed.

Lemma setData_data_congr name value c d :
  data c = data d ->
  data (setData name value c) = data (setData name value d).
Proof.
  intros E. unfold setData, setData_call. rewrite E.
  destruct (_ && _)%bool; [|exact E].
  destruct value;
    try (destruct (obj_assign _ _ _); simpl; [reflexivity | exact E]).
  destruct (hasOwnProperty_callee (data d)); try exact E.
  destruct (Obj.hasOwnProperty _ _); simpl; [now rewrite E | exact E].
Qed.

(** X17: user data never reaches the transport: [setData] before a [send]
    or after it gives the same instance, the same completion and the same
    invocations. *)
Theorem send_ignores_user_data (c : XHR) (body name value : jsval) :
  fst (send body (setData name value c)) = setData name value (fst (send body c))
  /\ snd (send body (setData name value c)) = snd (send body c)
  /\ XMLHttpRequest.calls (xhr (fst (send body (setData name value c))))
     = XMLHttpRequest.calls (xhr (fst (send body c))).
Proof.
  assert (Hd : data (fst (send body c)) = data c) by apply send_frame.
  assert (H : send body (setData name value c)
              = (setData name value (fst (send body c)), snd (send body c))).
  { rewrite (setData_only_data name value c), send_with_data.
    rewrite (setData_only_data name value (fst (send body c))).
    now rewrite (setData_data_congr name value _ _ Hd). }
  rewrite H. simpl. split; [reflexivity|]. split; [reflexivity|].
  now rewrite (setData_only_data name value (fst (send body c))).
Qed.

(** X18: [setTimeout] stores a positive number as the timeout and 0 for
    anything else (zero, a negative number, NaN, a value that is not a
    number); the stored timeout is never negative. *)
Theorem setTimeout_nonnegative (c : XHR) (msec : jsval) :
  0 <= XMLHttpRequest.timeout (xhr (setTimeout msec c))
  /\ (forall n, 0 < n ->
                XMLHttpRequest.timeout (xhr (setTimeout (JNum n) c)) = n)
  /\ ((forall n, msec = JNum n -> n <= 0) ->
      XMLHttpRequest.timeout (xhr (setTimeout msec c)) = 0).
Proof.
  split; [|split].
  - destruct msec; simpl; try lia. destruct (0 <? n) eqn:E; [|lia].
    apply Z.ltb_lt in E. lia.
  - intros n Hn. simpl. apply Z.ltb_lt in Hn. now rewrite Hn.
  - intros H. destruct msec; simpl; try reflexivity.
    destruct (0 <? n) eqn:E; [|reflexivity].
    apply Z.ltb_lt in E. specialize (H n eq_refl). lia.
Qed.

Lemma setTimeout_nonnegative_witness :
  0 < 5000
  /\ XMLHttpRequest.timeout (xhr (setTimeout (JNum 5000) sample)) = 5000
  /\ XMLHttpRequest.timeout (xhr (setTimeout (JNum (-3)) sample)) = 0.
Proof.
  split; [reflexivity|]. split.
  - exact (proj1 (proj2 (setTimeout_nonnegative sample (JNum 5000))) 5000 eq_refl).
  - apply (proj2 (proj2 (setTimeout_nonnegative sample (JNum (-3))))).
    intros n [= <-]. discriminate.
Defined.

(** ** Notifications *)

Lemma errorState_code_none c :
  errorState (JBool false) c = JNum ERR_NONE <-> isSuccessResponse c = true.
Proof. symmetry. apply (errorState_none_iff c (JBool false)). Qed.

Lemma isCompleted_progress rs st resp c :
  isCompleted (with_xhr (XMLHttpRequest.progress rs st resp) c)
  = (rs =? XMLHttpRequest.DONE).
Proof. unfold isCompleted. simpl. apply orb_diag. Qed.

(** X19: with two functions registered by [onSuccess], a notification before
    the terminal state calls neither; at the terminal state exactly one is
    called: [successHandler] when [errorState()] is 0, [errorHandler]
    otherwise. *)
Theorem onSuccess_routing (c : XHR) (hOk hErr : jsval) (rs st : Z) (resp : jsval)
        (HfOk : js_typeof hOk = "function") (HfErr : js_typeof hErr = "function") :
  (rs <> XMLHttpRequest.DONE ->
   readystatechange
     (with_xhr (XMLHttpRequest.progress rs st resp) (onSuccess hOk hErr c)) = [])
  /\ (rs = XMLHttpRequest.DONE ->
      errorState (JBool false)
        (with_xhr (XMLHttpRequest.progress rs st resp) (onSuccess hOk hErr c))
      = JNum ERR_NONE ->
      readystatechange
        (with_xhr (XMLHttpRequest.progress rs st resp) (onSuccess hOk hErr c))
      = [HandlerCall hOk])
  /\ (rs = XMLHttpRequest.DONE ->
      errorState (JBool false)
        (with_xhr (XMLHttpRequest.progress rs st resp) (onSuccess hOk hErr c))
      <> JNum ERR_NONE ->
      readystatechange
        (with_xhr (XMLHttpRequest.progress rs st resp) (onSuccess hOk hErr c))
      = [HandlerCall hErr]).
Proof.
  set (d := with_xhr (XMLHttpRequest.progress rs st resp) (onSuccess hOk hErr c)).
  assert (Hfire : readystatechange d
                  = if isCompleted d
                    then if isSuccessResponse d then call_if_function hOk
                         else call_if_function hErr
                    else []) by reflexivity.
  assert (Hc : isCompleted d = (rs =? XMLHttpRequest.DONE))
    by apply isCompleted_progress.
  unfold call_if_function in Hfire. rewrite HfOk, HfErr in Hfire. simpl in Hfire.
  rewrite Hfire, Hc. split; [|split].
  - intros Hrs. apply Z.eqb_neq in Hrs. now rewrite Hrs.
  - intros -> He. apply errorState_code_none in He. now rewrite He.
  - intros -> He. destruct (isSuccessResponse d) eqn:Hs; [|reflexivity].
    exfalso. apply He. now apply errorState_code_none.
Qed.

Lemma onSuccess_routing_witness :
  js_typeof (JFunction "ok") = "function"
  /\ js_typeof (JFunction "err") = "function"
  /\ readystatechange
       (with_xhr (XMLHttpRequest.progress 4 404 (JStr "missing"))
                 (onSuccess (JFunction "ok") (JFunction "err") sample))
     = [HandlerCall (JFunction "err")].
Proof.
  split; [reflexivity|]. split; [reflexivity|].
  apply (proj2 (proj2 (onSuccess_routing sample (JFunction "ok") (JFunction "err")
                                         4 404 (JStr "missing") eq_refl eq_refl)));
    [reflexivity | discriminate].
Defined.

Lemma settle_settled s evs :
  s <> StillPending -> fold_left settle evs s = s.
Proof.
  intros Hs. induction evs as [|e evs IH]; simpl; [reflexivity|].
  destruct s; try contradiction; exact IH.
Qed.

Lemma notify_settled reports c s :
  s <> StillPending -> notify reports c s = s.
Proof.
  intros Hs. revert c. induction reports as [|[[rs st] resp] rest IH]; intros c;
    simpl; [reflexivity|].
  rewrite (settle_settled s _ Hs). apply IH.
Qed.

Lemma promise_notification c rs st resp :
  XMLHttpRequest.onreadystatechange (xhr c) = PromiseListener ->
  readystatechange (with_xhr (XMLHttpRequest.progress rs st resp) c)
  = if (rs =? XMLHttpRequest.DONE)
    then if isSuccessResponse (with_xhr (XMLHttpRequest.progress rs st resp) c)
         then [Resolve] else [Reject]
    else [].
Proof.
  intros Hl. unfold readystatechange. simpl XMLHttpRequest.onreadystatechange.
  now rewrite Hl, isCompleted_progress.
Qed.

Lemma notify_early reports c :
  XMLHttpRequest.onreadystatechange (xhr c) = PromiseListener ->
  Forall (fun r => fst (fst r) <> XMLHttpRequest.DONE) reports ->
  forall terminal,
    notify (reports ++ terminal) c StillPending
    = notify terminal
             (fold_left (fun d r => with_xhr (XMLHttpRequest.progress
                                                (fst (fst r)) (snd (fst r)) (snd r)) d)
                        reports c)
             StillPending.
Proof.
  intros Hl Hearly terminal. revert c Hl.
  induction Hearly as [|[[rs st] resp] rest Hrs Hrest IH]; intros c Hl; simpl;
    [reflexivity|].
  rewrite (promise_notification c rs st resp Hl).
  simpl in Hrs. apply Z.eqb_neq in Hrs. rewrite Hrs. simpl.
  now apply IH.
Qed.

(** X20: the promise returned by [promise] on an instance with a non-empty
    URL stays pending while the transport reports states before the
    terminal one; the first terminal report fulfils it with the instance
    when [errorState()] is 0 and rejects it with the instance otherwise,
    and no later report changes that.  With an empty URL the promise is
    rejected with the error of [send], whatever the transport reports. *)
Theorem promise_settles (c : XHR) (body : jsval)
        (early later : list (Z * Z * jsval)) (st : Z) (resp : jsval)
        (Hearly : Forall (fun r => fst (fst r) <> XMLHttpRequest.DONE) early) :
  (truthy (url c) = true ->
   notify early (fst (promise body c)) (settlement_of (snd (promise body c)))
   = StillPending
   /\ (errorState (JBool false)
         (with_xhr (XMLHttpRequest.progress XMLHttpRequest.DONE st resp) c)
       = JNum ERR_NONE ->
       notify (early ++ (XMLHttpRequest.DONE, st, resp) :: later)
              (fst (promise body c)) (settlement_of (snd (promise body c)))
       = FulfilledWithThis)
   /\ (errorState (JBool false)
         (with_xhr (XMLHttpRequest.progress XMLHttpRequest.DONE st resp) c)
       <> JNum ERR_NONE ->
       notify (early ++ (XMLHttpRequest.DONE, st, resp) :: later)
              (fst (promise body c)) (settlement_of (snd (promise body c)))
       = RejectedWithThis))
  /\ (truthy (url c) = false ->
      notify (early ++ (XMLHttpRequest.DONE, st, resp) :: later)
             (fst (promise body c)) (settlement_of (snd (promise body c)))
      = RejectedWith (JError "The request URL is empty")).
Proof.
  set (c1 := with_xhr (XMLHttpRequest.set_onreadystatechange PromiseListener) c).
  split.
  - intros Hurl.
    assert (Hp : snd (promise body c) = Pending).
    { unfold promise. fold c1. now rewrite (send_run body c1 Hurl). }
    rewrite Hp. simpl settlement_of.
    assert (Hl : XMLHttpRequest.onreadystatechange (xhr (fst (promise body c)))
                 = PromiseListener) by apply promise_listener.
    assert (Hrt : XMLHttpRequest.responseType (xhr (fst (promise body c)))
                  = XMLHttpRequest.responseType (xhr c)).
    { assert (Hf : fst (promise body c) = fst (send body c1)).
      { unfold promise. fold c1. now destruct (send body c1) as [c2 [u | e]]. }
      rewrite Hf. destruct (send_settings body c1) as (H & _). now rewrite H. }
    set (p := fst (promise body c)) in *.
    set (d := fold_left
                (fun d r => with_xhr (XMLHttpRequest.progress
                                        (fst (fst r)) (snd (fst r)) (snd r)) d)
                early p).
    assert (Hd : XMLHttpRequest.onreadystatechange (xhr d) = PromiseListener
                 /\ XMLHttpRequest.responseType (xhr d)
                    = XMLHttpRequest.responseType (xhr c)).
    { unfold d. clear d Hearly. generalize p Hl Hrt. clear p Hl Hrt.
      induction early as [|[[rs' st'] resp'] rest IH]; intros p Hl Hrt; simpl;
        [now split|].
      apply IH; simpl; assumption. }
    destruct Hd as [Hdl Hdrt].
    assert (Hsucc : isSuccessResponse
                      (with_xhr (XMLHttpRequest.progress XMLHttpRequest.DONE st resp) d)
                    = isSuccessResponse
                        (with_xhr (XMLHttpRequest.progress XMLHttpRequest.DONE st resp) c)).
    { unfold isSuccessResponse, isStatusOK. simpl. now rewrite Hdrt. }
    assert (Hstep : notify (early ++ (XMLHttpRequest.DONE, st, resp) :: later)
                           p StillPending
                    = if isSuccessResponse
                           (with_xhr (XMLHttpRequest.progress XMLHttpRequest.DONE st resp) c)
                      then FulfilledWithThis else RejectedWithThis).
    { rewrite (notify_early early p Hl Hearly). fold d. simpl.
      rewrite (promise_notification d _ st resp Hdl), Z.eqb_refl, Hsucc.
      clear Hsucc.
      destruct (isSuccessResponse _); simpl; apply notify_settled; discriminate. }
    split; [|split].
    + rewrite <- (app_nil_r early), (notify_early early p Hl Hearly). reflexivity.
    + intros He. apply errorState_code_none in He. now rewrite Hstep, He.
    + intros He. rewrite Hstep. clear Hstep Hsucc.
      destruct (isSuccessResponse
                  (with_xhr (XMLHttpRequest.progress XMLHttpRequest.DONE st resp) c))
        eqn:Hs; [|reflexivity].
      exfalso. apply He. now apply errorState_code_none.
  - intros Hurl.
    assert (Hp : snd (promise body c) = Rejected (JError "The request URL is empty")).
    { unfold promise. fold c1. now rewrite (send_throws body c1 Hurl). }
    rewrite Hp. simpl settlement_of. apply notify_settled. discriminate.
Qed.

Lemma promise_settles_witness :
  Forall (fun r => fst (fst r) <> XMLHttpRequest.DONE)
         [(1, 0, JStr ""); (2, 200, JStr ""); (3, 200, JStr "par")]
  /\ truthy (url sample) = true
  /\ notify ([(1, 0, JStr ""); (2, 200, JStr ""); (3, 200, JStr "par")]
             ++ (XMLHttpRequest.DONE, 200, JStr "partial")
             :: [(XMLHttpRequest.DONE, 0, JNull)])
            (fst (promise JUndefined sample))
            (settlement_of (snd (promise JUndefined sample)))
     = FulfilledWithThis
  /\ notify ([] ++ (XMLHttpRequest.DONE, 200, JStr "ok") :: [])
            (fst (promise JUndefined (new_XHR JUndefined JUndefined JUndefined)))
            (settlement_of
               (snd (promise JUndefined (new_XHR JUndefined JUndefined JUndefined))))
     = RejectedWith (JError "The request URL is empty").
Proof.
  assert (He : Forall (fun r : Z * Z * jsval => fst (fst r) <> XMLHttpRequest.DONE)
                      [(1, 0, JStr ""); (2, 200, JStr ""); (3, 200, JStr "par")]).
  { repeat (constructor; [simpl; discriminate|]). constructor. }
  split; [exact He|]. split; [reflexivity|]. split.
  - exact (proj1 (proj2 (proj1 (promise_settles
                                  sample JUndefined _ [(XMLHttpRequest.DONE, 0, JNull)]
                                  200 (JStr "partial") He) eq_refl)) eq_refl).
  - exact (proj2 (promise_settles
                    (new_XHR JUndefined JUndefined JUndefined) JUndefined
                    [] [] 200 (JStr "ok") (Forall_nil _)) eq_refl).
Defined.

(** X21: [promise] on an instance whose URL is empty does not throw: it
    returns a promise rejected with the error of [send], the transport
    receives nothing, and the handler slot has been replaced all the same;
    with a non-empty URL the promise is pending and the transport receives
    what [send] hands it. *)
Theorem promise_dispatch (c : XHR) (body : jsval) :
  (truthy (url c) = false ->
   promise body c
   = (with_xhr (XMLHttpRequest.set_onreadystatechange PromiseListener) c,
      Rejected (JError "The request URL is empty"))
   /\ XMLHttpRequest.calls (xhr (fst (promise body c)))
      = XMLHttpRequest.calls (xhr c))
  /\ (truthy (url c) = true ->
      snd (promise body c) = Pending
      /\ XMLHttpRequest.calls (xhr (fst (promise body c)))
         = XMLHttpRequest.calls (xhr (fst (send body c))))
  /\ XMLHttpRequest.onreadystatechange (xhr (fst (promise body c)))
     = PromiseListener.
Proof.
  set (c1 := with_xhr (XMLHttpRequest.set_onreadystatechange PromiseListener) c).
  split; [|split].
  - intros Hurl. unfold promise. fold c1.
    assert (H1 : truthy (url c1) = false) by exact Hurl.
    rewrite (send_throws body c1 H1). split; reflexivity.
  - intros Hurl. unfold promise. fold c1.
    assert (H1 : truthy (url c1) = true) by exact Hurl.
    rewrite (send_run body c1 H1), (send_run body c Hurl). simpl fst. simpl snd.
    split; [reflexivity|]. now rewrite !calls_received.
  - apply promise_listener.
Qed.

Lemma promise_dispatch_witness :
  truthy (url (new_XHR JUndefined JUndefined JUndefined)) = false
  /\ snd (promise (JStr "b") (new_XHR JUndefined JUndefined JUndefined))
     = Rejected (JError "The request URL is empty")
  /\ snd (promise (JStr "b") sample) = Pending.
Proof.
  split; [reflexivity|]. split.
  - exact (f_equal snd
             (proj1 (proj1 (promise_dispatch
                              (new_XHR JUndefined JUndefined JUndefined) (JStr "b"))
                           eq_refl))).
  - exact (proj1 (proj1 (proj2 (promise_dispatch sample (JStr "b"))) eq_refl)).
Defined.

(** X22: the timeout handler has a slot of its own: [onTimeout] leaves the
    state-change handler as it is, and [onChange], [onReady], [onSuccess],
    [promise] and [send] leave the timeout handler as it is. *)
Theorem onTimeout_separate_slot (c : XHR) (h h' hOk hErr body : jsval) :
  timeout_event (onTimeout h c) = call_if_function h
  /\ readystatechange (onTimeout h c) = readystatechange c
  /\ timeout_event (onChange h' (onTimeout h c)) = call_if_function h
  /\ timeout_event (onReady h' (onTimeout h c)) = call_if_function h
  /\ timeout_event (onSuccess hOk hErr (onTimeout h c)) = call_if_function h
  /\ timeout_event (fst (promise body (onTimeout h c))) = call_if_function h
  /\ timeout_event (fst (send body (onTimeout h c))) = call_if_function h.
Proof.
  repeat (split; [reflexivity|]). split.
  - unfold promise, timeout_event.
    set (c1 := with_xhr (XMLHttpRequest.set_onreadystatechange PromiseListener)
                        (onTimeout h c)).
    destruct (send_settings body c1) as (_ & _ & _ & Ho).
    destruct (send body c1) as [c2 [u | e]]; simpl in *; now rewrite Ho.
  - unfold timeout_event.
    destruct (send_settings body (onTimeout h c)) as (_ & _ & _ & Ho).
    now rewrite Ho.
Qed.

(** X23: a handler that is not a function is never called: after
    [onChange], [onReady], [onSuccess] or [onTimeout] with such values, no
    notification in any state of the transport runs anything. *)
Theorem non_function_handlers_ignored (c : XHR) (h h' : jsval) (rs st : Z)
        (resp : jsval)
        (Hh : js_typeof h <> "function") (Hh' : js_typeof h' <> "function") :
  readystatechange (with_xhr (XMLHttpRequest.progress rs st resp) (onChange h c)) = []
  /\ readystatechange (with_xhr (XMLHttpRequest.progress rs st resp) (onReady h c)) = []
  /\ readystatechange
       (with_xhr (XMLHttpRequest.progress rs st resp) (onSuccess h h' c)) = []
  /\ timeout_event (with_xhr (XMLHttpRequest.progress rs st resp) (onTimeout h c)) = [].
Proof.
  assert (Hn : forall f, js_typeof f <> "function" -> call_if_function f = []).
  { intros f Hf. unfold call_if_function.
    destruct (js_typeof f =? "function")%string eqn:E; [|reflexivity].
    apply String.eqb_eq in E. contradiction. }
  unfold readystatechange, timeout_event. simpl.
  rewrite (Hn h Hh), (Hn h' Hh').
  repeat split;
    repeat match goal with |- context [if ?b then _ else _] => destruct b end;
    reflexivity.
Qed.

Lemma non_function_handlers_ignored_witness :
  js_typeof (JStr "not a function") <> "function"
  /\ js_typeof JUndefined <> "function"
  /\ readystatechange
       (with_xhr (XMLHttpRequest.progress 4 200 (JStr "ok"))
                 (onSuccess (JStr "not a function") JUndefined sample)) = [].
Proof.
  assert (H1 : js_typeof (JStr "not a function") <> "function") by discriminate.
  assert (H2 : js_typeof JUndefined <> "function") by discriminate.
  split; [exact H1|]. split; [exact H2|].
  exact (proj1 (proj2 (proj2 (non_function_handlers_ignored
                                sample (JStr "not a function") JUndefined
                                4 200 (JStr "ok") H1 H2)))).
Defined.

(** ** What every sequence of calls keeps *)

Lemma keys_set k v o k' :
  In k' (map fst (Obj.set k v o)) <-> k' = k \/ In k' (map fst o).
Proof.
  induction o as [|[k0 v0] r IH]; simpl.
  - intuition.
  - destruct (k =? k0)%string eqn:E; simpl.
    + apply String.eqb_eq in E. subst k0. intuition.
    + rewrite IH. intuition.
Qed.

Lemma wf_set k v o : Obj.wf o -> Obj.wf (Obj.set k v o).
Proof.
  unfold Obj.wf. induction o as [|[k0 v0] r IH]; simpl; intros Hwf.
  - constructor; [tauto | constructor].
  - inversion Hwf as [|? ? Hnot Hr]; subst.
    destruct (k =? k0)%string eqn:E; simpl.
    + apply String.eqb_eq in E. subst k0. now constructor.
    + constructor; [|now apply IH].
      rewrite keys_set. intros [-> | Hin]; [|contradiction].
      now rewrite String.eqb_refl in E.
Qed.

Lemma keys_delete k o k' :
  In k' (map fst (Obj.delete k o)) -> In k' (map fst o).
Proof.
  induction o as [|[k0 v0] r IH]; simpl; [tauto|].
  destruct (k =? k0)%string; simpl; intuition.
Qed.

Lemma wf_delete k o : Obj.wf o -> Obj.wf (Obj.delete k o).
Proof.
  unfold Obj.wf. induction o as [|[k0 v0] r IH]; simpl; intros Hwf; [constructor|].
  inversion Hwf as [|? ? Hnot Hr]; subst.
  destruct (k =? k0)%string; simpl; [now apply IH|].
  constructor; [|now apply IH].
  intros Hin. apply Hnot. now apply keys_delete in Hin.
Qed.

Lemma Forall_set (P : string * jsval -> Prop) k v o :
  Forall P o -> P (k, v) -> Forall P (Obj.set k v o).
Proof.
  intros Ho Hkv. induction Ho as [|[k0 v0] r H0 Hr IH]; simpl.
  - now constructor.
  - destruct (k =? k0)%string; now constructor.
Qed.

Lemma Forall_delete (P : string * jsval -> Prop) k o :
  Forall P o -> Forall P (Obj.delete k o).
Proof.
  intros Ho. induction Ho as [|[k0 v0] r H0 Hr IH]; simpl; [constructor|].
  destruct (k =? k0)%string; [exact IH | now constructor].
Qed.

Lemma configured_same c d :
  configured c ->
  headers d = headers c -> data d = data c -> url d = url c ->
  method d = method c -> postData d = postData c ->
  XMLHttpRequest.timeout (xhr d) = XMLHttpRequest.timeout (xhr c) ->
  configured d.
Proof.
  intros [H1 H2 H3 H4 H5 H6 H7 H8] Eh Ed Eu Em Ep Et.
  constructor; rewrite ?Eh, ?Ed, ?Eu, ?Em, ?Ep, ?Et; assumption.
Qed.

Lemma configured_headers c h :
  configured c -> Obj.wf h -> Forall header_ok h ->
  configured (with_headers (fun _ => h) c).
Proof.
  intros [H1 H2 H3 H4 H5 H6 H7 H8] Hwf Hok. now constructor.
Qed.

Lemma normalised_or v d : truthy (js_or v d) = true \/ js_or v d = d.
Proof. unfold js_or. destruct (truthy v) eqn:E; auto. Qed.

Lemma configured_new u b m : configured (new_XHR u b m).
Proof.
  constructor; simpl; try (constructor; fail); try apply normalised_or. lia.
Qed.

Lemma nonempty_app_l (a b : string) : a <> "" -> (a ++ b)%string <> "".
Proof. destruct a; [contradiction | simpl; discriminate]. Qed.

Lemma pair_nonempty (name rest : string) : (name ++ "=" ++ rest)%string <> "".
Proof. destruct name; simpl; discriminate. Qed.

Lemma configured_with_headers c h :
  configured c -> Obj.wf h -> Forall header_ok h ->
  configured (with_headers (fun _ => h) c).
Proof. intros [H1 H2 H3 H4 H5 H6 H7 H8] Hwf Hok. now constructor. Qed.

Lemma configured_with_data c d :
  configured c -> Obj.wf d -> Forall datum_ok d ->
  configured (with_data (fun _ => d) c).
Proof. intros [H1 H2 H3 H4 H5 H6 H7 H8] Hwf Hok. now constructor. Qed.

Lemma setHeader_configured name value c :
  configured c -> configured (setHeader name value c).
Proof.
  intros Hc. unfold setHeader, setHeader_call. rewrite !truthy_length.
  destruct (nonempty_string name) eqn:Hn; [|exact Hc].
  apply nonempty_string_inv in Hn. destruct Hn as (n & -> & Hn). simpl str_value.
  pose proof (headers_wf c Hc) as H1. pose proof (headers_ok c Hc) as H2.
  destruct (nonempty_string value) eqn:Hv.
  - rewrite (obj_assign_string n value _ Hv). simpl.
    apply configured_with_headers; try assumption;
      destruct (_ || _)%bool; try assumption.
    + now apply wf_set.
    + apply Forall_set; [assumption | now split].
  - destruct (hasOwnProperty_callee (headers c)); try exact Hc.
    destruct (Obj.hasOwnProperty n (headers c)); [|exact Hc]. simpl.
    apply (configured_with_headers c (Obj.delete n (headers c))); try assumption.
    + now apply wf_delete.
    + now apply Forall_delete.
Qed.

Lemma setData_configured name value c :
  configured c -> configured (setData name value c).
Proof.
  intros Hc. unfold setData, setData_call. rewrite truthy_length.
  destruct (nonempty_string name) eqn:Hn; [|exact Hc].
  apply nonempty_string_inv in Hn. destruct Hn as (n & -> & Hn). simpl str_value.
  pose proof (data_wf c Hc) as H3. pose proof (data_ok c Hc) as H4.
  assert (Hset : forall w, w <> JUndefined ->
            configured (fst (match obj_assign n w (data c) with
                             | Stored d => (with_data (fun _ => d) c, ReturnsThis)
                             | PrototypeChanged => (c, LeavesModel)
                             end))).
  { intros w Hw.
    assert (Hs : configured (with_data (fun _ => Obj.set n w (data c)) c)).
    { apply configured_with_data; try assumption.
      - now apply wf_set.
      - apply Forall_set; [assumption | now split]. }
    unfold obj_assign.
    destruct (Obj.hasOwnProperty n (data c)); [exact Hs|].
    destruct (n =? "__proto__")%string; [|exact Hs].
    destruct w; simpl; try exact Hc; now apply configured_with_data. }
  destruct value; try (apply Hset; discriminate).
  destruct (hasOwnProperty_callee (data c)); try exact Hc.
  destruct (Obj.hasOwnProperty n (data c)); [|exact Hc]. simpl.
  apply (configured_with_data c (Obj.delete n (data c))); try assumption.
  - now apply wf_delete.
  - now apply Forall_delete.
Qed.

Lemma encode_loop_nonempty o keys acc l :
  Forall (fun x => x <> "") acc ->
  encode_loop o keys acc = inl l ->
  Forall (fun x => x <> "") l.
Proof.
  revert acc. induction keys as [|key keys IH]; intros acc Hacc; simpl.
  - now intros [= <-].
  - destruct (hasOwnProperty_callee o); try discriminate.
    apply IH. unfold push_cookie.
    destruct (_ && _ && _)%bool; [|exact Hacc].
    apply Forall_app. split; [exact Hacc|].
    constructor; [apply pair_nonempty | constructor].
Qed.

Lemma setCookies_configured cookies c :
  configured c -> configured (setCookies cookies c).
Proof.
  intros Hc. unfold setCookies, setCookies_call.
  set (loop := if (js_typeof cookies =? "object")%string
               then encode_loop (props_of cookies)
                                (Obj.for_in_keys (props_of cookies)) []
               else inl []).
  destruct loop as [encoded | stop] eqn:El; [|exact Hc].
  assert (Hne : Forall (fun x => x <> "") encoded).
  { unfold loop in El. destruct (js_typeof cookies =? "object")%string.
    - apply (encode_loop_nonempty _ _ [] _ (Forall_nil _) El).
    - injection El as <-. constructor. }
  pose proof (headers_wf c Hc) as H1. pose proof (headers_ok c Hc) as H2.
  destruct encoded as [|x l]; simpl.
  - destruct (hasOwnProperty_callee (headers c)); try exact Hc.
    destruct (Obj.hasOwnProperty "Cookie" (headers c)); [|exact Hc]. simpl.
    apply (configured_with_headers c (Obj.delete "Cookie" (headers c)));
      try assumption.
    + now apply wf_delete.
    + now apply Forall_delete.
  - apply (configured_with_headers
             c (Obj.set "Cookie" (JStr (String.concat "; " (x :: l))) (headers c)));
      try assumption.
    + now apply wf_set.
    + apply Forall_set; [assumption|]. split; [discriminate|].
      apply truthy_string. intros E.
      apply (concat_nonempty "; " x l); [now inversion Hne | exact E].
Qed.

Lemma setCookie_configured name value c :
  configured c ->
  exists c', setCookie name value c = Some c' /\ configured c'.
Proof.
  intros Hc. unfold setCookie. rewrite setCookie_guard.
  destruct (nonempty_string name && nonempty_string value)%bool;
    [|now exists c].
  destruct Hc as [H1 H2 H3 H4 H5 H6 H7 H8].
  unfold Obj.hasOwnProperty, Obj.get.
  destruct (Obj.lookup "Cookie" (headers c)) as [old|] eqn:E.
  - apply ObjFacts.lookup_In in E.
    pose proof (proj1 (Forall_forall _ _) H2 _ E) as [_ Hold]. simpl in Hold.
    apply nonempty_string_inv in Hold. destruct Hold as (t & -> & Ht).
    simpl. eexists. split; [reflexivity|].
    constructor; simpl; try assumption.
    + now apply wf_set.
    + apply Forall_set; [assumption|]. split; [discriminate|].
      now apply truthy_string, nonempty_app_l.
  - eexists. split; [reflexivity|].
    constructor; simpl; try assumption.
    + now apply wf_set.
    + apply Forall_set; [assumption|]. split; [discriminate|].
      apply truthy_string, pair_nonempty.
Qed.

Lemma promise_fst body c :
  fst (promise body c)
  = fst (send body (with_xhr (XMLHttpRequest.set_onreadystatechange PromiseListener) c)).
Proof. unfold promise. now destruct (send body _) as [c' [u | e]]. Qed.

Lemma send_configured body c : configured c -> configured (fst (send body c)).
Proof.
  intros Hc. destruct (send_frame body c) as (Hm & Hu & Hp & _ & _ & Hh & Hd).
  destruct (send_settings body c) as (_ & Ht & _).
  now apply (configured_same c).
Qed.

Lemma perform_configured a c :
  configured c -> exists c', perform a c = Some c' /\ configured c'.
Proof.
  intros Hc. destruct a; simpl;
    try (eexists; split; [reflexivity|]).
  - destruct Hc as [H1 H2 H3 H4 H5 H6 H7 H8].
    constructor; simpl; try assumption; apply normalised_or.
  - now apply (configured_same c).
  - destruct Hc as [H1 H2 H3 H4 H5 H6 H7 H8].
    constructor; simpl; try assumption.
    destruct msec; simpl; try lia. destruct (0 <? n) eqn:E; [|lia].
    apply Z.ltb_lt in E. lia.
  - now apply setData_configured.
  - now apply setHeader_configured.
  - now apply setCookie_configured.
  - now apply setCookies_configured.
  - now apply (configured_same c).
  - now apply (configured_same c).
  - now apply (configured_same c).
  - now apply (configured_same c).
  - rewrite promise_fst. apply send_configured. now apply (configured_same c).
  - unfold responseType. destruct (negb _); [exact Hc|].
    now apply (configured_same c).
  - now apply send_configured.
  - now apply (configured_same c).
  - now apply (configured_same c).
Qed.

Lemma perform_all_configured l c :
  configured c -> exists c', perform_all l c = Some c' /\ configured c'.
Proof.
  revert c. induction l as [|a l IH]; intros c Hc; simpl.
  - now exists c.
  - destruct (perform_configured a c Hc) as (c1 & -> & Hc1). now apply IH.
Qed.

(** X24: from a new instance, every sequence of calls of the interface and
    of progress reports of the transport can be carried out, and leaves an
    instance whose header names are unique and non-empty, whose header
    values are non-empty strings, whose user data names are unique and
    non-empty with values other than [undefined], whose URL and method are
    truthy or the empty string, whose body is truthy or [undefined], and
    whose timeout is not negative. *)
Theorem interface_keeps_configured (u b m : jsval) (l : list action) :
  exists c, perform_all l (new_XHR u b m) = Some c /\ configured c.
Proof. apply perform_all_configured, configured_new. Qed.

(** X25: on an instance reached from a new one by calls of the interface,
    a dispatch hands [setRequestHeader] only non-empty names with non-empty
    string values, each name once, and [send] throws exactly when the
    stored URL is the empty string. *)
Theorem reachable_dispatch_well_formed (u b m : jsval) (l : list action)
        (c : XHR) (body : jsval)
        (Hreach : perform_all l (new_XHR u b m) = Some c) :
  (forall k v,
      In (XMLHttpRequest.SetRequestHeader k v) (header_calls (headers c)) ->
      k <> "" /\ nonempty_string v = true)
  /\ NoDup (map fst (headers c))
  /\ NoDup (header_calls (headers c))
  /\ (snd (send body c) = Throw (JError "The request URL is empty")
      <-> url c = JStr "").
Proof.
  destruct (perform_all_configured l (new_XHR u b m) (configured_new u b m))
    as (c' & Hrun & Hc).
  rewrite Hreach in Hrun. injection Hrun as <-.
  destruct Hc as [H1 H2 H3 H4 H5 H6 H7 H8].
  split; [|split; [|split]].
  - intros k v Hin. apply (header_calls_In _ k v H1) in Hin.
    apply ObjFacts.lookup_In in Hin.
    exact (proj1 (Forall_forall _ _) H2 _ Hin).
  - exact H1.
  - now apply header_calls_NoDup.
  - split.
    + intros Hthrow. destruct H5 as [Ht | He]; [|exact He].
      rewrite (send_run body c Ht) in Hthrow. discriminate.
    + intros He. rewrite send_throws; [reflexivity | now rewrite He].
Qed.

Lemma reachable_dispatch_well_formed_witness :
  exists c,
    perform_all
      [DoSetHeader (JStr "Accept") (JStr "text/html");
       DoSetCookie (JStr "a") (JStr "1");
       DoSetCookie (JStr "b") (JStr "2");
       DoSetHeader (JStr "Accept") (JNum 0);
       DoOnReady (JFunction "h");
       DoSend (JStr "body")]
      (new_XHR (JStr "/items") JUndefined JUndefined)
    = Some c
    /\ headers c = [("Cookie", JStr "a=1; b=2")]
    /\ NoDup (header_calls (headers c)).
Proof.
  eexists. split; [reflexivity|]. split; [reflexivity|].
  exact (proj1 (proj2 (proj2
           (reachable_dispatch_well_formed
              (JStr "/items") JUndefined JUndefined
              [DoSetHeader (JStr "Accept") (JStr "text/html");
               DoSetCookie (JStr "a") (JStr "1");
               DoSetCookie (JStr "b") (JStr "2");
               DoSetHeader (JStr "Accept") (JNum 0);
               DoOnReady (JFunction "h");
               DoSend (JStr "body")]
              _ JUndefined eq_refl)))).
Defined.

(** ** Reuse *)

(** X26: [abort] hands the transport an [abort] and assigns nothing; with a
    non-empty URL a [send] after it returns and hands the transport the
    invocations of a dispatch, after the [abort]. *)
Theorem abort_then_send (c : XHR) (body : jsval)
        (Hurl : truthy (url c) = true) :
  XMLHttpRequest.calls (xhr (abort c))
  = (XMLHttpRequest.calls (xhr c) ++ [XMLHttpRequest.Abort])%list
  /\ snd (send body (abort c)) = Normal tt
  /\ XMLHttpRequest.calls (xhr (fst (send body (abort c))))
     = (XMLHttpRequest.calls (xhr c)
        ++ XMLHttpRequest.Abort :: dispatch_calls body c)%list.
Proof.
  assert (Hurl' : truthy (url (abort c)) = true) by exact Hurl.
  split; [reflexivity|]. split.
  - now rewrite (send_run body _ Hurl').
  - rewrite (send_calls body _ Hurl'). simpl. now rewrite <- app_assoc.
Qed.

Lemma abort_then_send_witness :
  truthy (url sample) = true
  /\ XMLHttpRequest.calls (xhr (fst (send JUndefined (abort sample))))
     = [XMLHttpRequest.Abort;
        XMLHttpRequest.Open (JStr "POST") (JStr "/items") true JUndefined JUndefined;
        XMLHttpRequest.SetRequestHeader "X-Test" (JStr "OK");
        XMLHttpRequest.Send (Some (JStr "stored"))].
Proof.
  split; [reflexivity|].
  exact (proj2 (proj2 (abort_then_send sample JUndefined eq_refl))).
Defined.

(** X27: [reset] replaces the URL, the body and the method and keeps the
    credentials and the headers: a dispatch after [httpAuth] and [reset]
    opens the transport with the new URL and the credentials given to
    [httpAuth], applies the headers stored before, and sends by the new
    body. *)
Theorem reset_keeps_configuration (c : XHR) (un pw u b m body : jsval)
        (Hurl : truthy u = true) :
  XMLHttpRequest.calls (xhr (fst (send body (reset u b m (httpAuth un pw c)))))
  = (XMLHttpRequest.calls (xhr c)
     ++ XMLHttpRequest.Open
          (inferred_method (js_or m (JStr "")) body (js_or b JUndefined))
          u true un pw
     :: header_calls (headers c)
     ++ [XMLHttpRequest.Send (chosen_body body (js_or b JUndefined))])%list
  /\ headers (reset u b m (httpAuth un pw c)) = headers c
  /\ data (reset u b m (httpAuth un pw c)) = data c
  /\ XMLHttpRequest.onreadystatechange (xhr (reset u b m (httpAuth un pw c)))
     = XMLHttpRequest.onreadystatechange (xhr c).
Proof.
  assert (Hu : url (reset u b m (httpAuth un pw c)) = u)
    by (simpl; now apply js_or_truthy).
  assert (Hurl' : truthy (url (reset u b m (httpAuth un pw c))) = true)
    by now rewrite Hu.
  split; [|repeat split].
  rewrite (send_calls body _ Hurl'). unfold dispatch_calls. now rewrite Hu.
Qed.

Lemma reset_keeps_configuration_witness :
  truthy (JStr "/other") = true
  /\ XMLHttpRequest.calls
       (xhr (fst (send JUndefined
                       (reset (JStr "/other") JUndefined JUndefined
                              (httpAuth (JStr "me") (JStr "pw") sample)))))
     = [XMLHttpRequest.Open (JStr "GET") (JStr "/other") true (JStr "me") (JStr "pw");
        XMLHttpRequest.SetRequestHeader "X-Test" (JStr "OK");
        XMLHttpRequest.Send None].
Proof.
  split; [reflexivity|].
  exact (proj1 (reset_keeps_configuration sample (JStr "me") (JStr "pw")
                  (JStr "/other") JUndefined JUndefined JUndefined eq_refl)).
Defined.

(** X28: on an instance reached from a new one by calls of the interface,
    [reset] with the stored URL, body and method changes nothing. *)
Theorem reset_with_stored_values (u b m : jsval) (l : list action) (c : XHR)
        (Hreach : perform_all l (new_XHR u b m) = Some c) :
  reset (url c) (postData c) (method c) c = c.
Proof.
  destruct (perform_all_configured l (new_XHR u b m) (configured_new u b m))
    as (c' & Hrun & Hc).
  rewrite Hreach in Hrun. injection Hrun as <-.
  destruct Hc as [_ _ _ _ H5 H6 H7 _].
  assert (Hn : forall v d, truthy v = true \/ v = d -> truthy d = false ->
                           js_or v d = v).
  { intros v d [Hv | ->] Hd; unfold js_or; [now rewrite Hv | now rewrite Hd]. }
  unfold reset.
  rewrite (Hn _ _ H5 eq_refl), (Hn _ _ H6 eq_refl), (Hn _ _ H7 eq_refl).
  now destruct c.
Qed.

Lemma reset_with_stored_values_witness :
  exists c,
    perform_all [DoReset JNull (JNum 0) (JStr "PUT"); DoSetTimeout (JNum 50)]
                (new_XHR (JStr "/items") (JStr "b") JUndefined)
    = Some c
    /\ url c = JStr "" /\ postData c = JUndefined
    /\ reset (url c) (postData c) (method c) c = c.
Proof.
  eexists. split; [reflexivity|]. split; [reflexivity|]. split; [reflexivity|].
  exact (reset_with_stored_values
           (JStr "/items") (JStr "b") JUndefined
           [DoReset JNull (JNum 0) (JStr "PUT"); DoSetTimeout (JNum 50)]
           _ eq_refl).
Defined.
